(** * Hybrid work-dispatch core of gastown: analyzer, model selection,
      router, context manager and cost tracker.

    A shallow embedding of package [backend] (analyzer.go, backend.go,
    context.go, and the package's router and cost tracker) followed by the
    properties proved about it.

    Conventions.
    - A Go [string] is a sequence of bytes: Rocq's [string].
    - A Go [int] is a 64-bit two's-complement integer, embedded in [Z].
      Arithmetic on caller-supplied ints is wrapped ([GoInt.sub],
      [GoInt.add]).  Lengths, element counts and sums of the per-message
      token heuristic are bounded by the size of the data in memory and
      are computed in [Z] directly; so is the analyzer's score, which the
      signals keep between -10 and 305 before clamping.
    - A Go [float64] is Rocq's primitive binary64 [float].
    - A Go [map] is stdpp's [gmap]; reading a missing key gives the zero
      value, written with [default].
    - A [*T] that the code dereferences unconditionally is embedded as
      the pointee; one it tests against [nil] as an [option].
    - [sync.Mutex] sections are embedded as the sequential function they
      protect; [log.Printf] in the router is not embedded (it does not
      influence any returned value). *)

From Stdlib Require Import ZArith String Ascii List Bool Lia PrimFloat.
From stdpp Require Import base option list gmap strings.
Import ListNotations.

#[local] Set Warnings "-inexact-float".
#[local] Open Scope string_scope.
#[local] Open Scope Z_scope.

(* ===================================================================== *)
(** ** Go's [int] *)
(* ===================================================================== *)

Module GoInt.

Definition min_int : Z := - 2 ^ 63.
Definition max_int : Z := 2 ^ 63 - 1.

(** Two's-complement wrap-around of a mathematical integer into [int]. *)
Definition wrap (z : Z) : Z := (z + 2 ^ 63) mod 2 ^ 64 - 2 ^ 63.

Definition in_range (z : Z) : Prop := min_int <= z <= max_int.

Definition add (a b : Z) : Z := wrap (a + b).
Definition sub (a b : Z) : Z := wrap (a - b).

End GoInt.

(* ===================================================================== *)
(** ** The parts of Go's [strings] and [regexp] the analyzer uses *)
(* ===================================================================== *)

Module GoStrings.

(** [len(s)] *)
Definition len (s : string) : Z := Z.of_nat (String.length s).

(** [strings.Contains(s, substr)]: [substr] occurs in [s] at some offset. *)
Fixpoint Contains (s substr : string) : bool :=
  String.prefix substr s
  || match s with
     | EmptyString => false
     | String _ rest => Contains rest substr
     end.

(** [strings.HasPrefix] *)
Definition HasPrefix (s pre : string) : bool := String.prefix pre s.

Definition byte_in (lo hi : ascii) (c : ascii) : bool :=
  (N.leb (N_of_ascii lo) (N_of_ascii c)) && (N.leb (N_of_ascii c) (N_of_ascii hi)).

(** [strings.ToLower] and [strings.Fields] belong to Go's library and work
    on Unicode code points.  The embedding of the repository's functions
    takes them as parameters; [ascii_ToLower] and [ascii_Fields] are what
    they compute on ASCII text, and are used to run the embedding. *)
Definition ascii_lower (c : ascii) : ascii :=
  if byte_in "A" "Z" c then ascii_of_N (N_of_ascii c + 32) else c.

Fixpoint ascii_ToLower (s : string) : string :=
  match s with
  | EmptyString => EmptyString
  | String c rest => String (ascii_lower c) (ascii_ToLower rest)
  end.

(** ASCII white space of [unicode.IsSpace]: tab, LF, VT, FF, CR, space. *)
Definition ascii_isSpace (c : ascii) : bool :=
  byte_in "009" "013" c || Ascii.eqb c " ".

(** [fieldsFrom s word]: the fields of [s], given the (reversed) bytes of
    the field being read. *)
Fixpoint fieldsFrom (s : string) (word : list ascii) : list string :=
  let flush (rest : list string) :=
    match word with
    | [] => rest
    | _ => string_of_list_ascii (rev word) :: rest
    end in
  match s with
  | EmptyString => flush []
  | String c rest =>
      if ascii_isSpace c then flush (fieldsFrom rest [])
      else fieldsFrom rest (c :: word)
  end.

Definition ascii_Fields (s : string) : list string := fieldsFrom s [].

(** *** The regular expression [\d+\.\s+\w+]

    Go's Perl classes are ASCII-only: [\d] is [0-9], [\s] is
    tab, LF, FF, CR and space, [\w] is [0-9A-Za-z_].  A match therefore
    consists of ASCII bytes only and scanning bytes is exact for any
    input.  [FindAllString(s, -1)] returns the successive leftmost,
    non-overlapping matches; every repetition is greedy. *)
Definition re_digit (c : ascii) : bool := byte_in "0" "9" c.
Definition re_space (c : ascii) : bool :=
  Ascii.eqb c "009" || Ascii.eqb c "010" || Ascii.eqb c "012"
  || Ascii.eqb c "013" || Ascii.eqb c " ".
Definition re_word (c : ascii) : bool :=
  re_digit c || byte_in "a" "z" c || byte_in "A" "Z" c || Ascii.eqb c "_".

(** Progress of the attempt whose start is the leftmost one still viable. *)
Inductive re_state :=
| Searching          (* no attempt under way *)
| InDigits           (* [\d+] read so far *)
| AfterDot           (* [\d+\.] *)
| InSpaces           (* [\d+\.\s+] *)
| InWord.            (* [\d+\.\s+\w+]: a match, being extended greedily *)

Definition re_step (st : re_state) (c : ascii) : re_state * bool :=
  let restart := if re_digit c then InDigits else Searching in
  match st with
  | Searching => (restart, false)
  | InDigits =>
      if re_digit c then (InDigits, false)
      else if Ascii.eqb c "." then (AfterDot, false)
      else (Searching, false)
  | AfterDot => if re_space c then (InSpaces, false) else (restart, false)
  | InSpaces =>
      if re_space c then (InSpaces, false)
      else if re_word c then (InWord, false)
      else (Searching, false)
  | InWord => if re_word c then (InWord, false) else (Searching, true)
  end.

(** Number of matches [FindAllString] returns. *)
Fixpoint countNumbered (st : re_state) (s : string) : Z :=
  match s with
  | EmptyString => match st with InWord => 1 | _ => 0 end
  | String c rest =>
      let '(st', ended) := re_step st c in
      (if ended then 1 else 0) + countNumbered st' rest
  end.

Definition numberedListMatches (s : string) : Z := countNumbered Searching s.

End GoStrings.

(* ===================================================================== *)
(** ** analyzer.go *)
(* ===================================================================== *)

(** [type ModelTier int] with its four constants. *)
Definition ModelTier := Z.
Definition TierSimple : ModelTier := 0.
Definition TierModerate : ModelTier := 1.
Definition TierComplex : ModelTier := 2.
Definition TierCLI : ModelTier := 3.

Definition ModelTier_String (t : ModelTier) : string :=
  if t =? TierSimple then "simple"
  else if t =? TierModerate then "moderate"
  else if t =? TierComplex then "complex"
  else if t =? TierCLI then "cli"
  else "unknown".

Module TaskComplexity.
Record t := mk {
  Score : Z;
  MinTier : ModelTier;
  RequiresToolUse : bool;
  Signals : list string
}.
End TaskComplexity.

Module ModelCapability.
Record t := mk {
  Backend : string;
  Model : string;
  Tier : ModelTier;
  CostPer1K : float;
  SpeedScore : Z
}.
End ModelCapability.

(** The catalog, in the order of the source. *)
Definition ModelCapabilities : list ModelCapability.t := [
  ModelCapability.mk "grok" "grok-3-mini" TierSimple 0.0001%float 9;
  ModelCapability.mk "bedrock" "haiku" TierSimple 0.001%float 8;
  ModelCapability.mk "grok" "grok-3" TierModerate 0.01%float 7;
  ModelCapability.mk "bedrock" "sonnet" TierModerate 0.009%float 6;
  ModelCapability.mk "bedrock" "opus" TierComplex 0.045%float 4
].

(** [type Intent string] *)
Definition Intent := string.
Definition IntentAuto : Intent := "auto".
Definition IntentFast : Intent := "fast".
Definition IntentCheap : Intent := "cheap".
Definition IntentBalanced : Intent := "balanced".
Definition IntentQuality : Intent := "quality".

Definition toolPatterns : list string := [
  "create file"; "create a file"; "write to file"; "edit file";
  "modify file"; "delete file"; "run test"; "run the test";
  "execute command"; "git commit"; "git push"; "git pull";
  "npm install"; "npm run"; "pip install"; "make build"; "deploy to";
  "restart service"; "ssh into"; "docker build"; "docker run";
  "docker compose"; "kubectl apply"; "kubectl create"
].

(** [complexPatterns] is a Go map literal: the loop over it visits the
    entries in an unspecified order.  The score it adds to is a sum and
    does not depend on that order; only the order of the ["complex:..."]
    entries of [Signals] does, and they are listed here in source order. *)
Definition complexPatterns : list (string * Z) := [
  ("implement", 30); ("refactor", 30); ("architect", 40); ("design", 25);
  ("debug", 20); ("optimize", 20); ("migrate", 25); ("integrate", 20);
  ("multi-step", 20); ("comprehensive", 15)
].

Definition multiStepPatterns : list string := [
  "and then"; "after that"; "first,"; "second,"; "finally,"; "step 1"; "step 2"
].

Definition simplePatterns : list string := [
  "summarize"; "explain"; "what is"; "list"; "format"; "convert";
  "translate"; "classify"; "categorize"
].

(** [for _, pattern := range patterns { if strings.Contains(text, pattern) { return true } }] *)
Fixpoint requiresToolUse_loop (patterns : list string) (text : string) : bool :=
  match patterns with
  | [] => false
  | pattern :: rest =>
      if GoStrings.Contains text pattern then true
      else requiresToolUse_loop rest text
  end.

Definition requiresToolUse (text : string) : bool :=
  requiresToolUse_loop toolPatterns text.

Definition scoreToTier (score : Z) : ModelTier :=
  if score <? 25 then TierSimple
  else if score <? 50 then TierModerate
  else TierComplex.

(** The first pattern of the list that occurs in [text], if any (a loop
    that ends with [break] at its first hit). *)
Fixpoint firstMatch (patterns : list string) (text : string) : option string :=
  match patterns with
  | [] => None
  | pattern :: rest =>
      if GoStrings.Contains text pattern then Some pattern
      else firstMatch rest text
  end.

(** The running [score] and [result.Signals] of [Analyze]. *)
Definition acc := (Z * list string)%type.

Definition complexStep (text : string) (a : acc) (entry : string * Z) : acc :=
  let '(pattern, points) := entry in
  if GoStrings.Contains text pattern
  then (fst a + points, (snd a ++ ["complex:" +:+ pattern])%list)
  else a.

Definition labelStep (a : acc) (label : string) : acc :=
  if bool_decide (label = "tier:fast") || bool_decide (label = "tier:cheap")
  then (Z.min (fst a) 30, (snd a ++ ["user-hint:cheap"])%list)
  else if bool_decide (label = "tier:quality") || bool_decide (label = "tier:powerful")
  then (Z.max (fst a) 60, (snd a ++ ["user-hint:quality"])%list)
  else a.

Definition clamp (score : Z) : Z :=
  let score := if score <? 0 then 0 else score in
  if score >? 100 then 100 else score.

Section Analyze.

(** Go's [strings.ToLower] and [strings.Fields]. *)
Variable ToLower : string -> string.
Variable Fields : string -> list string.

Definition combinedText (title description : string) : string :=
  ToLower (title +:+ " " +:+ description).

Definition Analyze (title description : string) (labels : list string)
  : TaskComplexity.t :=
  let combined := combinedText title description in
  if requiresToolUse combined then
    TaskComplexity.mk 100 TierCLI true ["requires-tool-use"]
  else
    (* length-based complexity *)
    let wordCount := Z.of_nat (length (Fields combined)) in
    let a : acc :=
      if wordCount >? 200 then (25, ["long-description"])
      else if wordCount >? 100 then (15, ["medium-description"])
      else if wordCount >? 50 then (5, [])
      else (0, []) in
    (* complex task indicators: every match counts *)
    let a := fold_left (complexStep combined) complexPatterns a in
    (* multi-step indicators: the first match only *)
    let a :=
      match firstMatch multiStepPatterns combined with
      | Some _ => (fst a + 25, (snd a ++ ["multi-step"])%list)
      | None => a
      end in
    (* numbered list detection *)
    let a :=
      if GoStrings.numberedListMatches combined >? 2
      then (fst a + 10, (snd a ++ ["numbered-list"])%list)
      else a in
    (* simple task indicators: the first match only *)
    let a :=
      match firstMatch simplePatterns combined with
      | Some pattern => (fst a - 10, (snd a ++ ["simple:" +:+ pattern])%list)
      | None => a
      end in
    (* explicit tier hints in labels *)
    let a := fold_left labelStep labels a in
    let score := clamp (fst a) in
    TaskComplexity.mk score (scoreToTier score) false (snd a).

End Analyze.

(** [ExtractIntent]: the intent of the first label that names one. *)
Fixpoint ExtractIntent (labels : list string) : Intent :=
  match labels with
  | [] => IntentAuto
  | label :: rest =>
      if bool_decide (label = "tier:fast") then IntentFast
      else if bool_decide (label = "tier:cheap") then IntentCheap
      else if bool_decide (label = "tier:balanced") then IntentBalanced
      else if bool_decide (label = "tier:quality")
              || bool_decide (label = "tier:powerful") then IntentQuality
      else ExtractIntent rest
  end.

(** The minimum tier after the intent adjustment of [SelectModel]. *)
Definition adjustMinTier (minTier : ModelTier) (intent : Intent) : ModelTier :=
  if bool_decide (intent = IntentFast) || bool_decide (intent = IntentCheap) then
    if minTier >? TierSimple then minTier - 1 else minTier
  else if bool_decide (intent = IntentQuality) then
    if minTier <? TierComplex then minTier + 1 else minTier
  else minTier.

(** [available := make(map[string]bool); for _, b := range availableBackends { available[b] = true }] *)
Definition availableSet (availableBackends : list string) : gmap string bool :=
  fold_left (fun m b => <[b := true]> m) availableBackends ∅.

Definition meetsTier (minTier : ModelTier) (available : gmap string bool)
    (cap : ModelCapability.t) : bool :=
  (ModelCapability.Tier cap >=? minTier)
  && default false (available !! ModelCapability.Backend cap).

(** One step of the scan for the best candidate. *)
Definition better (intent : Intent) (best c : ModelCapability.t)
  : ModelCapability.t :=
  if bool_decide (intent = IntentFast) then
    if ModelCapability.SpeedScore c >? ModelCapability.SpeedScore best
    then c else best
  else
    if PrimFloat.ltb (ModelCapability.CostPer1K c) (ModelCapability.CostPer1K best)
    then c else best.

(** [SelectModel]; [None] is the [nil] result. *)
Definition SelectModel (complexity : TaskComplexity.t) (intent : Intent)
    (availableBackends : list string) : option ModelCapability.t :=
  if TaskComplexity.RequiresToolUse complexity then None
  else
    let minTier := adjustMinTier (TaskComplexity.MinTier complexity) intent in
    let available := availableSet availableBackends in
    let candidates := List.filter (meetsTier minTier available) ModelCapabilities in
    match candidates with
    | [] => None
    | first :: rest => Some (fold_left (better intent) rest first)
    end.

(* ===================================================================== *)
(** ** backend.go *)
(* ===================================================================== *)

Module Message.
Record t := mk {
  Role : string;      (* "user", "assistant", "system" *)
  Content : string
}.
End Message.

Module InvokeResult.
Record t := mk {
  Content : string;
  Model : string;
  InputTokens : Z;
  OutputTokens : Z;
  FinishReason : string
}.
End InvokeResult.

Module CostEstimate.
Record t := mk {
  InputCost : float;
  OutputCost : float;
  TotalCost : float;
  Currency : string;
  Model : string
}.
End CostEstimate.

(** [type RoutingDecision string] with its two constants. *)
Definition RoutingDecision := string.
Definition RouteAPI : RoutingDecision := "api".
Definition RouteCLI : RoutingDecision := "cli".

Module RouteResult.
Record t := mk {
  Decision : RoutingDecision;
  Backend : string;
  Model : string;
  Reason : string;
  FallbackToCLI : bool
}.
End RouteResult.

(** [Registry]: the router reads the registry through [Has] and [List]
    only, so the embedding keeps the set of registered names (the keys of
    [backends map[string]AgentBackend]). *)
Module Registry.
Definition t := gset string.

Definition Has (r : t) (name : string) : bool := bool_decide (name ∈ r).

(** [List] returns the names in the map's iteration order, which Go leaves
    unspecified; [elements] is one such order. *)
Definition List (r : t) : list string := elements r.

Definition Register (r : t) (name : string) : t := {[ name ]} ∪ r.
End Registry.

(** [TierToBackend]: legacy tag to (backend, model). *)
Definition TierToBackend : gmap string (string * string) :=
  list_to_map [
    ("haiku", ("bedrock", "haiku"));
    ("sonnet", ("bedrock", "sonnet"));
    ("opus", ("bedrock", "opus"));
    ("grok-fast", ("grok", "grok-3-mini"));
    ("grok", ("grok", "grok-3"));
    ("grok-4", ("grok", "grok-4"));
    ("gpt4", ("openai", "gpt-4o"));
    ("o1", ("openai", "o1"));
    ("o3-mini", ("openai", "o3-mini"))
  ].

(* ===================================================================== *)
(** ** The router (package [backend]) *)
(* ===================================================================== *)

Module RoutingConfig.
Record t := mk {
  Enabled : bool;
  DefaultRoute : RoutingDecision;
  DefaultBackend : string;
  DefaultModel : string;
  CostThreshold : float;
  TokenThreshold : Z;
  FallbackToCLI : bool
  (* [Rules []RoutingRule]: never read by the router *)
}.
End RoutingConfig.

Module RoutingHints.
Record t := mk {
  Title : string;
  Description : string;
  Tier : string;
  ModelTag : string;
  Intent : Intent;
  Type_ : string;
  EstimatedTokens : Z;
  Labels : list string
}.

(** [&RoutingHints{}] *)
Definition zero : t := mk "" "" "" "" "" "" 0 [].
End RoutingHints.

Definition DefaultRoutingConfig : RoutingConfig.t :=
  RoutingConfig.mk false RouteCLI "bedrock" "haiku" 0.5%float 50000 true.

Module Router.
Record t := mk {
  config : RoutingConfig.t;
  registry : Registry.t
  (* [analyzer *TaskAnalyzer]: a struct without fields *)
}.
End Router.

Section Route.

Variable ToLower : string -> string.
Variable Fields : string -> list string.

Definition buildReason (complexity : TaskComplexity.t) (intent : Intent)
    (selected : ModelCapability.t) : string :=
  let parts := ["complexity=" +:+ ModelTier_String (TaskComplexity.MinTier complexity)] in
  let parts :=
    if bool_decide (intent = IntentAuto) then parts
    else (parts ++ ["intent=" +:+ intent])%list in
  let parts :=
    (parts ++ ["selected=" +:+ ModelCapability.Backend selected +:+ "/"
                 +:+ ModelCapability.Model selected])%list in
  String.concat ", " parts.

(** The intent a legacy tag stands for, in [findFallbackForTag]. *)
Definition tagIntent (tag : string) : Intent :=
  if bool_decide (tag = "grok-fast") || bool_decide (tag = "haiku") then IntentCheap
  else if bool_decide (tag = "grok") || bool_decide (tag = "sonnet") then IntentBalanced
  else if bool_decide (tag = "opus") || bool_decide (tag = "grok-4") then IntentQuality
  else IntentAuto.

Definition findFallbackForTag (r : Router.t) (tag : string) : option RouteResult.t :=
  let intent := tagIntent tag in
  let availableBackends := Registry.List (Router.registry r) in
  let minTier :=
    if bool_decide (intent = IntentQuality) then TierComplex
    else if bool_decide (intent = IntentBalanced) then TierModerate
    else TierSimple in
  let complexity := TaskComplexity.mk 0 minTier false [] in
  match SelectModel complexity intent availableBackends with
  | None => None
  | Some selected =>
      Some (RouteResult.mk RouteAPI
              (ModelCapability.Backend selected)
              (ModelCapability.Model selected)
              ("fallback from " +:+ tag +:+ " to " +:+ ModelCapability.Backend selected
                 +:+ "/" +:+ ModelCapability.Model selected)
              (RoutingConfig.FallbackToCLI (Router.config r)))
  end.

(** [routeByModelTag]; [None] is the [nil] result ("not decided here"). *)
Definition routeByModelTag (r : Router.t) (tag : string) : option RouteResult.t :=
  match TierToBackend !! tag with
  | Some (backend, model) =>
      if Registry.Has (Router.registry r) backend then
        Some (RouteResult.mk RouteAPI backend model
                ("legacy model tag: " +:+ tag)
                (RoutingConfig.FallbackToCLI (Router.config r)))
      else findFallbackForTag r tag
  | None =>
      if Registry.Has (Router.registry r) tag then
        Some (RouteResult.mk RouteAPI tag ""
                ("legacy model tag (backend): " +:+ tag)
                (RoutingConfig.FallbackToCLI (Router.config r)))
      else None
  end.

(** The intent and minimum tier of a legacy tier name. *)
Definition legacyTier (tier : string) : option (Intent * ModelTier) :=
  if bool_decide (tier = "haiku") then Some (IntentCheap, TierSimple)
  else if bool_decide (tier = "sonnet") then Some (IntentBalanced, TierModerate)
  else if bool_decide (tier = "opus") then Some (IntentQuality, TierComplex)
  else None.

Definition routeByLegacyTier (r : Router.t) (tier : string) : option RouteResult.t :=
  let tier := ToLower tier in
  match legacyTier tier with
  | None => None
  | Some (intent, minTier) =>
      let availableBackends := Registry.List (Router.registry r) in
      let complexity := TaskComplexity.mk 0 minTier false [] in
      match SelectModel complexity intent availableBackends with
      | None =>
          Some (RouteResult.mk RouteCLI "" ""
                  ("no API model available for tier: " +:+ tier) false)
      | Some selected =>
          Some (RouteResult.mk RouteAPI
                  (ModelCapability.Backend selected)
                  (ModelCapability.Model selected)
                  ("legacy tier: " +:+ tier +:+ " → " +:+ ModelCapability.Backend selected
                     +:+ "/" +:+ ModelCapability.Model selected)
                  (RoutingConfig.FallbackToCLI (Router.config r)))
      end
  end.

(** Steps 5 to 9 of [Route]: analysis, tool use, token threshold,
    available backends, model selection. *)
Definition routeByAnalysis (r : Router.t) (hints : RoutingHints.t) (intent : Intent)
  : RouteResult.t :=
  let complexity :=
    Analyze ToLower Fields (RoutingHints.Title hints)
      (RoutingHints.Description hints) (RoutingHints.Labels hints) in
  if TaskComplexity.RequiresToolUse complexity then
    RouteResult.mk RouteCLI "" ""
      "task requires tool use (file operations, git, etc.)" false
  else if (RoutingHints.EstimatedTokens hints >? 0)
          && (RoutingHints.EstimatedTokens hints
                >? RoutingConfig.TokenThreshold (Router.config r)) then
    RouteResult.mk RouteCLI "" "" "exceeds token threshold" false
  else
    let availableBackends := Registry.List (Router.registry r) in
    if (Z.of_nat (length availableBackends) =? 0) then
      RouteResult.mk RouteCLI "" "" "no API backends available" false
    else
      match SelectModel complexity intent availableBackends with
      | None =>
          RouteResult.mk RouteCLI "" ""
            "no suitable model available for task complexity" true
      | Some selected =>
          RouteResult.mk RouteAPI
            (ModelCapability.Backend selected)
            (ModelCapability.Model selected)
            (buildReason complexity intent selected)
            (RoutingConfig.FallbackToCLI (Router.config r))
      end.

(** Steps 4 onwards: the legacy tier hint, then the analysis. *)
Definition routeFromTier (r : Router.t) (hints : RoutingHints.t) (intent : Intent)
  : RouteResult.t :=
  let byTier :=
    if bool_decide (RoutingHints.Tier hints = "") then None
    else routeByLegacyTier r (RoutingHints.Tier hints) in
  match byTier with
  | Some result => result
  | None => routeByAnalysis r hints intent
  end.

(** [Route]; [hints] may be [nil]. *)
Definition Route (r : Router.t) (hints : option RoutingHints.t) : RouteResult.t :=
  if negb (RoutingConfig.Enabled (Router.config r)) then
    RouteResult.mk RouteCLI "" "" "hybrid routing disabled" false
  else
    let hints := default RoutingHints.zero hints in
    let intent := ExtractIntent (RoutingHints.Labels hints) in
    let intent :=
      if bool_decide (intent = IntentAuto)
         && negb (bool_decide (RoutingHints.Intent hints = ""))
      then RoutingHints.Intent hints else intent in
    let byTag :=
      if bool_decide (RoutingHints.ModelTag hints = "") then None
      else routeByModelTag r (RoutingHints.ModelTag hints) in
    match byTag with
    | Some result => result
    | None => routeFromTier r hints intent
    end.

End Route.

(* ===================================================================== *)
(** ** context.go *)
(* ===================================================================== *)

(** [type TruncationStrategy string] *)
Definition TruncationStrategy := string.
Definition TruncateOldest : TruncationStrategy := "truncate_oldest".
Definition TruncateMiddle : TruncationStrategy := "truncate_middle".
Definition TruncateLongest : TruncationStrategy := "truncate_longest".

Module ContextManager.
Record t := mk {
  DefaultStrategy : TruncationStrategy;
  ReserveTokens : Z
}.
End ContextManager.

Definition NewContextManager : ContextManager.t :=
  ContextManager.mk TruncateOldest 4096.

(** The two errors [fmt.Errorf] builds, with the integers they print. *)
Inductive ctx_error :=
| ErrReserve (maxTokens reserve : Z)
    (* "max_tokens (%d) too small for response reserve (%d)" *)
| ErrCannotFit (maxTokens : Z).
    (* "cannot fit any messages in %d tokens" *)

(** How a call ends: a value with a [nil] error, an error, or the run-time
    panic of a slice expression whose bound is negative. *)
Inductive outcome (A : Type) :=
| Return (a : A)
| Fail (e : ctx_error)
| SlicePanic.
Arguments Return {A} a.
Arguments Fail {A} e.
Arguments SlicePanic {A}.

Definition isSystem (m : Message.t) : bool :=
  bool_decide (Message.Role m = "system").

(** [chars := len(msg.Content) + len(msg.Role) + 10; return chars / 4] *)
Definition estimateMessageTokens (msg : Message.t) : Z :=
  Z.quot (GoStrings.len (Message.Content msg) + GoStrings.len (Message.Role msg) + 10) 4.

Definition estimateTokens (messages : list Message.t) : Z :=
  fold_left (fun total msg => total + estimateMessageTokens msg) messages 0.

(** [msg.Content[:n] + "..."]; the slice expression panics when [n < 0]
    (and when [n > len], which its one caller excludes). *)
Definition truncateMessage (msg : Message.t) (maxTokens : Z) : outcome Message.t :=
  let maxChars := maxTokens * 4 in
  if GoStrings.len (Message.Content msg) <=? maxChars then Return msg
  else if (maxChars - 3 <? 0) || (maxChars - 3 >? GoStrings.len (Message.Content msg))
  then SlicePanic
  else
    let truncated :=
      String.substring 0 (Z.to_nat (maxChars - 3)) (Message.Content msg) +:+ "..." in
    Return (Message.mk (Message.Role msg) truncated).

(** The loop that separates a leading system message from the
    conversation: [if msg.Role == "system" && i == 0 { systemMsg = &messages[i] }
    else { conversation = append(conversation, msg) }]. *)
Fixpoint separate (i : Z) (messages : list Message.t)
    (systemMsg : option Message.t) (conversation : list Message.t)
  : option Message.t * list Message.t :=
  match messages with
  | [] => (systemMsg, conversation)
  | msg :: rest =>
      if isSystem msg && (i =? 0)
      then separate (i + 1) rest (Some msg) conversation
      else separate (i + 1) rest systemMsg (conversation ++ [msg])%list
  end.

(** [result = append([]Message{*systemMsg}, result...)] when there is one. *)
Definition withSystem (systemMsg : option Message.t) (result : list Message.t)
  : list Message.t :=
  match systemMsg with
  | Some s => s :: result
  | None => result
  end.

Definition systemCost (systemMsg : option Message.t) : Z :=
  match systemMsg with
  | Some s => estimateMessageTokens s
  | None => 0
  end.

(** The loop of [truncateOldest] over [conversation[i]] for [i] from the
    last index down: [newestFirst] is the part of the conversation not yet
    visited, most recent message first. *)
Fixpoint keepRecent (newestFirst : list Message.t) (available currentTokens : Z)
    (result : list Message.t) : list Message.t :=
  match newestFirst with
  | [] => result
  | msg :: older =>
      let msgTokens := estimateMessageTokens msg in
      if currentTokens + msgTokens >? available then result
      else keepRecent older available (currentTokens + msgTokens) (msg :: result)
  end.

Definition truncateOldest (messages : list Message.t) (maxTokens : Z)
  : outcome (list Message.t) :=
  if Z.of_nat (length messages) <? 2 then Return messages
  else
    let '(systemMsg, conversation) := separate 0 messages None [] in
    let systemTokens := systemCost systemMsg in
    let availableForConversation := maxTokens - systemTokens in
    if availableForConversation <=? 0 then
      match systemMsg with
      | Some s =>
          match truncateMessage s maxTokens with
          | Return truncated => Return [truncated]
          | Fail e => Fail e
          | SlicePanic => SlicePanic
          end
      | None => Fail (ErrCannotFit maxTokens)
      end
    else
      let result := keepRecent (rev conversation) availableForConversation 0 [] in
      Return (withSystem systemMsg result).

(** [middle[i]]; the loop below keeps [0 <= i < len(middle)]. *)
Definition at_index (middle : list Message.t) (i : Z) : Message.t :=
  nth (Z.to_nat i) middle (Message.mk "" "").

(** [kept = append(kept, Message{}); copy(kept[left+1:], kept[left:]); kept[left] = msg] *)
Definition insertAt (left : Z) (msg : Message.t) (kept : list Message.t)
  : list Message.t :=
  (firstn (Z.to_nat left) kept ++ msg :: skipn (Z.to_nat left) kept)%list.

(** The loop [for left <= right] of [truncateMiddle]; [fuel] bounds the
    number of iterations, each of which advances [left]. *)
Fixpoint middleLoop (fuel : nat) (middle : list Message.t) (remaining : Z)
    (left right currentTokens : Z) (kept : list Message.t) : list Message.t :=
  match fuel with
  | O => kept
  | S fuel' =>
      if left <=? right then
        let leftTokens := estimateMessageTokens (at_index middle left) in
        if currentTokens + leftTokens <=? remaining then
          let kept := (kept ++ [at_index middle left])%list in
          let currentTokens := currentTokens + leftTokens in
          let left := left + 1 in
          if left <=? right then
            let rightTokens := estimateMessageTokens (at_index middle right) in
            if currentTokens + rightTokens <=? remaining then
              middleLoop fuel' middle remaining left (right - 1)
                (currentTokens + rightTokens)
                (insertAt left (at_index middle right) kept)
            else kept
          else middleLoop fuel' middle remaining left right currentTokens kept
        else kept
      else kept
  end.

Definition truncateMiddle (messages : list Message.t) (maxTokens : Z)
  : outcome (list Message.t) :=
  if Z.of_nat (length messages) <=? 2 then Return messages
  else
    let '(systemMsg, conversation) := separate 0 messages None [] in
    if Z.of_nat (length conversation) <=? 2 then
      Return (withSystem systemMsg conversation)
    else
      let systemTokens := systemCost systemMsg in
      let availableForConversation := maxTokens - systemTokens in
      let first := at_index conversation 0 in
      let last := at_index conversation (Z.of_nat (length conversation) - 1) in
      let remaining :=
        availableForConversation - estimateMessageTokens first
          - estimateMessageTokens last in
      if remaining <=? 0 then Return (withSystem systemMsg [first; last])
      else
        (* middle := conversation[1 : len(conversation)-1] *)
        let middle := firstn (length conversation - 2) (skipn 1 conversation) in
        let kept :=
          middleLoop (length middle) middle remaining
            0 (Z.of_nat (length middle) - 1) 0 [] in
        Return (withSystem systemMsg ((first :: kept) ++ [last])%list).

(** The scan for the longest non-system message: the index of the first
    message of maximal, non-zero content length, or [-1]. *)
Fixpoint findLongest (msgs : list Message.t) (i longestIdx longestLen : Z) : Z :=
  match msgs with
  | [] => longestIdx
  | msg :: rest =>
      if isSystem msg then findLongest rest (i + 1) longestIdx longestLen
      else if GoStrings.len (Message.Content msg) >? longestLen
      then findLongest rest (i + 1) i (GoStrings.len (Message.Content msg))
      else findLongest rest (i + 1) longestIdx longestLen
  end.

(** [append(msgs[:idx], msgs[idx+1:]...)] *)
Definition removeAt (idx : Z) (msgs : list Message.t) : list Message.t :=
  (firstn (Z.to_nat idx) msgs ++ skipn (Z.to_nat (idx + 1)) msgs)%list.

(** The loop of [truncateLongest]; every iteration removes one message, so
    [length msgs] iterations are enough. *)
Fixpoint longestLoop (fuel : nat) (msgs : list Message.t) (maxTokens : Z)
  : list Message.t :=
  match fuel with
  | O => msgs
  | S fuel' =>
      if (estimateTokens msgs >? maxTokens) && (Z.of_nat (length msgs) >? 1) then
        let longestIdx := findLongest msgs 0 (-1) 0 in
        if longestIdx <? 0 then msgs
        else longestLoop fuel' (removeAt longestIdx msgs) maxTokens
      else msgs
  end.

Definition truncateLongest (messages : list Message.t) (maxTokens : Z)
  : outcome (list Message.t) :=
  Return (longestLoop (length messages) messages maxTokens).

(** [availableTokens := maxTokens - cm.ReserveTokens] *)
Definition availableTokens (cm : ContextManager.t) (maxTokens : Z) : Z :=
  GoInt.sub maxTokens (ContextManager.ReserveTokens cm).

Definition PrepareContext (cm : ContextManager.t) (messages : list Message.t)
    (maxTokens : Z) (strategy : TruncationStrategy)
  : outcome (list Message.t) :=
  if Z.of_nat (length messages) =? 0 then Return messages
  else
    let currentTokens := estimateTokens messages in
    let availableTokens := availableTokens cm maxTokens in
    if availableTokens <=? 0 then
      Fail (ErrReserve maxTokens (ContextManager.ReserveTokens cm))
    else if currentTokens <=? availableTokens then Return messages
    else
      let strategy :=
        if bool_decide (strategy = "") then ContextManager.DefaultStrategy cm
        else strategy in
      if bool_decide (strategy = TruncateOldest)
      then truncateOldest messages availableTokens
      else if bool_decide (strategy = TruncateMiddle)
      then truncateMiddle messages availableTokens
      else if bool_decide (strategy = TruncateLongest)
      then truncateLongest messages availableTokens
      else truncateOldest messages availableTokens.

(* ===================================================================== *)
(** ** The cost tracker (package [backend]) *)
(* ===================================================================== *)

Module CostEntry.
Record t := mk {
  Timestamp : Z;          (* the reading of [time.Now()] *)
  Backend : string;
  Model : string;
  InputTokens : Z;
  OutputTokens : Z;
  Cost : CostEstimate.t
}.
End CostEntry.

Module BackendCostSummary.
Record t := mk {
  Invocations : Z;
  InputTokens : Z;
  OutputTokens : Z;
  TotalCost : float
}.

(** The zero value a map read gives for a missing key. *)
Definition zero : t := mk 0 0 0 0%float.
End BackendCostSummary.

(** What [Record] writes to the log. *)
Inductive cost_log :=
| CostWarning (cost threshold : float) (backend model : string) (inTok outTok : Z)
| CostAlert (total threshold : float).

Module CostTracker.
Record t := mk {
  entries : list CostEntry.t;
  total : float;
  WarnThreshold : float;
  AlertThreshold : float
}.
End CostTracker.

Definition NewCostTracker : CostTracker.t :=
  CostTracker.mk [] 0%float 0.10%float 5.00%float.

(** [Record]: the tracker after the call and the lines logged.  [now] is
    what [time.Now()] returns during the call. *)
Definition Record_ (ct : CostTracker.t) (now : Z) (backend model : string)
    (result : InvokeResult.t) (cost : CostEstimate.t)
  : CostTracker.t * list cost_log :=
  let entry :=
    CostEntry.mk now backend model
      (InvokeResult.InputTokens result) (InvokeResult.OutputTokens result) cost in
  let entries := (CostTracker.entries ct ++ [entry])%list in
  let total := PrimFloat.add (CostTracker.total ct) (CostEstimate.TotalCost cost) in
  let warn :=
    if PrimFloat.ltb (CostTracker.WarnThreshold ct) (CostEstimate.TotalCost cost)
    then [CostWarning (CostEstimate.TotalCost cost) (CostTracker.WarnThreshold ct)
            backend model
            (InvokeResult.InputTokens result) (InvokeResult.OutputTokens result)]
    else [] in
  let alert :=
    if PrimFloat.ltb (CostTracker.AlertThreshold ct) total
    then [CostAlert total (CostTracker.AlertThreshold ct)]
    else [] in
  (CostTracker.mk entries total
     (CostTracker.WarnThreshold ct) (CostTracker.AlertThreshold ct),
   (warn ++ alert)%list).

Definition Total (ct : CostTracker.t) : float := CostTracker.total ct.

(** [Entries] returns a copy of the slice: the same sequence of entries. *)
Definition Entries (ct : CostTracker.t) : list CostEntry.t := CostTracker.entries ct.

(** One iteration of the loop of [Summary].  [Invocations] counts entries
    of a slice, whose length is an [int]: the increment cannot overflow.
    The token sums are sums of caller-supplied ints and wrap. *)
Definition summaryStep (summary : gmap string BackendCostSummary.t)
    (entry : CostEntry.t) : gmap string BackendCostSummary.t :=
  let s := default BackendCostSummary.zero (summary !! CostEntry.Backend entry) in
  let s :=
    BackendCostSummary.mk
      (BackendCostSummary.Invocations s + 1)
      (GoInt.add (BackendCostSummary.InputTokens s) (CostEntry.InputTokens entry))
      (GoInt.add (BackendCostSummary.OutputTokens s) (CostEntry.OutputTokens entry))
      (PrimFloat.add (BackendCostSummary.TotalCost s)
         (CostEstimate.TotalCost (CostEntry.Cost entry))) in
  <[CostEntry.Backend entry := s]> summary.

Definition Summary (ct : CostTracker.t) : gmap string BackendCostSummary.t :=
  fold_left summaryStep (CostTracker.entries ct) ∅.

(** [Summary()[backend]]: the zero summary for a backend without entries. *)
Definition summaryOf (ct : CostTracker.t) (backend : string) : BackendCostSummary.t :=
  default BackendCostSummary.zero (Summary ct !! backend).

Definition Reset (ct : CostTracker.t) : CostTracker.t :=
  CostTracker.mk [] 0%float
    (CostTracker.WarnThreshold ct) (CostTracker.AlertThreshold ct).

(* ===================================================================== *)
(** ** Further code of the package *)
(* ===================================================================== *)

(** [strings.TrimPrefix(s, prefix)] *)
Definition TrimPrefix (s pre : string) : string :=
  if GoStrings.HasPrefix s pre
  then String.substring (String.length pre) (String.length s - String.length pre) s
  else s.

(** [ExtractModelTag]: what follows "model:" in the first label that
    starts with it, or the empty string. *)
Fixpoint ExtractModelTag (labels : list string) : string :=
  match labels with
  | [] => ""
  | label :: rest =>
      if GoStrings.HasPrefix label "model:" then TrimPrefix label "model:"
      else ExtractModelTag rest
  end.

(** [BuildMessagesFromText] *)
Definition BuildMessagesFromText (systemPrompt userPrompt : string) : list Message.t :=
  let messages := [] in
  let messages :=
    if bool_decide (systemPrompt = "") then messages
    else (messages ++ [Message.mk "system" systemPrompt])%list in
  let messages :=
    if bool_decide (userPrompt = "") then messages
    else (messages ++ [Message.mk "user" userPrompt])%list in
  messages.

(** *** The registry with its backends

    [Registry] of backend.go as it is: a map from names to backends.  A
    backend is any value with a [Name()]; the error of [Get] is
    [fmt.Errorf("backend %q not registered", name)]. *)
Module Backends.
Section Backends.

Variable AgentBackend : Type.
Variable Name : AgentBackend -> string.

Inductive get_result :=
| Found (backend : AgentBackend)
| NotRegistered (name : string).

(** [GetRegistry()] on first use, and [ResetRegistryForTesting]. *)
Definition empty : gmap string AgentBackend := ∅.

Definition Register (r : gmap string AgentBackend) (backend : AgentBackend)
  : gmap string AgentBackend :=
  <[Name backend := backend]> r.

Definition Get (r : gmap string AgentBackend) (name : string) : get_result :=
  match r !! name with
  | Some backend => Found backend
  | None => NotRegistered name
  end.

(** [List]: the names in the map's iteration order, which Go leaves
    unspecified; the keys of [map_to_list] are one such order. *)
Definition List (r : gmap string AgentBackend) : list string := (map_to_list r).*1.

Definition Has (r : gmap string AgentBackend) (name : string) : bool :=
  match r !! name with
  | Some _ => true
  | None => false
  end.

(** The set of names the router's view of the registry keeps. *)
Definition names (r : gmap string AgentBackend) : Registry.t := dom r.

End Backends.

Arguments Found {AgentBackend} backend.
Arguments NotRegistered {AgentBackend} name.
Arguments Register {AgentBackend} Name r backend.
Arguments Get {AgentBackend} r name.
Arguments List {AgentBackend} r.
Arguments Has {AgentBackend} r name.
Arguments names {AgentBackend} r.

End Backends.

(** *** The Grok backend: context windows and the token count *)
Module Grok.

(** [Models]: model id to context window. *)
Definition Models : gmap string Z :=
  list_to_map [
    ("grok-3", 131072); ("grok-3-mini", 131072); ("grok-4", 131072);
    ("grok-2", 131072); ("grok-2-mini", 131072); ("grok-2-1212", 131072);
    ("grok-2-vision-1212", 32768); ("grok-beta", 131072)
  ].

Definition MaxContextTokens (model : string) : Z :=
  match Models !! model with
  | Some ctx => ctx
  | None => 131072
  end.

(** [CountTokens]: the characters of all messages, with 10 per message
    for the role, divided by 4 once. *)
Definition CountTokens (messages : list Message.t) : Z :=
  let totalChars :=
    fold_left
      (fun totalChars msg =>
         totalChars + GoStrings.len (Message.Content msg)
         + (GoStrings.len (Message.Role msg) + 10))
      messages 0 in
  Z.quot totalChars 4.

End Grok.

(** *** Vocabulary for the further properties *)

(** The labels [ExtractIntent] and [Analyze] react to. *)
Definition cheapHint (label : string) : Prop :=
  label = "tier:fast" \/ label = "tier:cheap".

Definition qualityHint (label : string) : Prop :=
  label = "tier:quality" \/ label = "tier:powerful".

Definition intentLabel (label : string) : Prop :=
  cheapHint label \/ label = "tier:balanced" \/ qualityHint label.

(** An entry [SelectModel] may return for this tier and these backends. *)
Definition capable (minTier : ModelTier) (availableBackends : list string)
    (cap : ModelCapability.t) : Prop :=
  In cap ModelCapabilities
  /\ ModelCapability.Tier cap >= minTier
  /\ In (ModelCapability.Backend cap) availableBackends.

(** The running total as the float64 sum of the entries' costs, in the
    order they were recorded. *)
Definition sumCosts (entries : list CostEntry.t) : float :=
  fold_left
    (fun total entry => PrimFloat.add total (CostEstimate.TotalCost (CostEntry.Cost entry)))
    entries 0%float.

Definition entriesOf (backend : string) (entries : list CostEntry.t) : list CostEntry.t :=
  List.filter (fun entry => bool_decide (CostEntry.Backend entry = backend)) entries.

(** An API result names a registered backend and carries the flag of the
    configuration. *)
Definition apiResult (r : Router.t) (result : RouteResult.t) : Prop :=
  RouteResult.Decision result = RouteAPI
  /\ Registry.Has (Router.registry r) (RouteResult.Backend result) = true
  /\ RouteResult.FallbackToCLI result
     = RoutingConfig.FallbackToCLI (Router.config r).

(** The bytes [estimateMessageTokens] and [CountTokens] charge for a
    message. *)
Definition messageChars (msg : Message.t) : Z :=
  GoStrings.len (Message.Content msg) + GoStrings.len (Message.Role msg) + 10.

(** The running total agrees with the entries. *)
Definition totalConsistent (ct : CostTracker.t) : Prop :=
  CostTracker.total ct = sumCosts (CostTracker.entries ct).

(* ===================================================================== *)
(** ** Vocabulary of the properties *)
(* ===================================================================== *)

(** [occurs_in sub s]: [sub] is a contiguous part of [s]. *)
Definition occurs_in (sub s : string) : Prop :=
  exists pre post, s = pre +:+ sub +:+ post.

(** The effective minimum tier in the words of the specification: lowered
    by one tier for fast/cheap with a floor at Simple, raised by one tier
    for quality with a ceiling at Complex, unchanged otherwise. *)
Definition spec_effectiveMinTier (minTier : ModelTier) (intent : Intent) : ModelTier :=
  if bool_decide (intent = IntentFast) || bool_decide (intent = IntentCheap)
  then Z.max (minTier - 1) TierSimple
  else if bool_decide (intent = IntentQuality)
  then Z.min (minTier + 1) TierComplex
  else minTier.

(** No entry of the catalog has a tier of at least [minTier] and a backend
    among [availableBackends]. *)
Definition noCandidate (minTier : ModelTier) (availableBackends : list string) : Prop :=
  forall cap, In cap ModelCapabilities ->
    ~ (ModelCapability.Tier cap >= minTier
       /\ In (ModelCapability.Backend cap) availableBackends).

(** The catalog's own comment says each tier is listed cheapest first. *)
Definition cheapestFirstWithinTier (catalog : list ModelCapability.t) : Prop :=
  forall i j a b,
    (i < j)%nat ->
    catalog !! i = Some a -> catalog !! j = Some b ->
    ModelCapability.Tier a = ModelCapability.Tier b ->
    PrimFloat.leb (ModelCapability.CostPer1K a) (ModelCapability.CostPer1K b) = true.

(** [hints] without its model tag. *)
Definition clearModelTag (hints : RoutingHints.t) : RoutingHints.t :=
  RoutingHints.mk
    (RoutingHints.Title hints) (RoutingHints.Description hints)
    (RoutingHints.Tier hints) ""
    (RoutingHints.Intent hints) (RoutingHints.Type_ hints)
    (RoutingHints.EstimatedTokens hints) (RoutingHints.Labels hints).

(** Sample inputs: routing enabled, a registry with grok alone, a
    summarising task with a legacy tier and tag, a short conversation. *)
Definition enabledConfig : RoutingConfig.t :=
  RoutingConfig.mk true RouteCLI "bedrock" "haiku" 0.5%float 50000 true.

Definition grokOnly : Router.t := Router.mk enabledConfig {[ "grok" ]}.

Definition bedrockOnly : Router.t := Router.mk enabledConfig {[ "bedrock" ]}.

Definition summarizeHints (tier tag : string) : RoutingHints.t :=
  RoutingHints.mk "Summarize" "Summarize the main points" tier tag "" "" 0 [].

Definition chat : list Message.t := [
  Message.mk "system" "You are a helpful assistant";
  Message.mk "user" "First message";
  Message.mk "assistant" "First response, somewhat longer than the rest";
  Message.mk "user" "Second message";
  Message.mk "assistant" "Second response"
].

(** One run of the loop, as the claim describes it: while the list does
    not fit and has more than one message, the first longest non-system
    message is dropped; the run ends when the list fits, a single message
    (or none) is left, or only system messages are left. *)
Inductive longest_run (budget : Z) : list Message.t -> list Message.t -> Prop :=
| run_done (msgs : list Message.t) :
    estimateTokens msgs <= budget
    \/ (length msgs <= 1)%nat
    \/ (forall m, In m msgs -> isSystem m = true) ->
    longest_run budget msgs msgs
| run_drop (pre post : list Message.t) (m : Message.t) (final : list Message.t) :
    budget < estimateTokens (pre ++ m :: post) ->
    (1 < length (pre ++ m :: post))%nat ->
    isSystem m = false ->
    (forall m', In m' pre -> isSystem m' = false ->
       GoStrings.len (Message.Content m') < GoStrings.len (Message.Content m)) ->
    (forall m', In m' post -> isSystem m' = false ->
       GoStrings.len (Message.Content m') <= GoStrings.len (Message.Content m)) ->
    longest_run budget (pre ++ post) final ->
    longest_run budget (pre ++ m :: post) final.

Definition run_finished (budget : Z) (msgs : list Message.t) : Prop :=
  estimateTokens msgs <= budget
  \/ (length msgs <= 1)%nat
  \/ (forall m, In m msgs -> isSystem m = true).

(** Every non-system message has some content. *)
Definition contentful (msgs : list Message.t) : Prop :=
  forall m, In m msgs -> isSystem m = false -> Message.Content m <> "".

(* ===================================================================== *)
(** * Properties *)
(* ===================================================================== *)

(** ** Substring search *)

Lemma prefix_true_iff (p s : string) :
  String.prefix p s = true <-> exists post, s = p +:+ post.
Proof.
  revert s; induction p as [|c p IH]; intros s; simpl.
  - split; [intros _; now exists s | intros _; now destruct s].
  - destruct s as [|d s]; simpl.
    + split; [discriminate | intros [post H]; discriminate].
    + destruct (Ascii.ascii_dec c d) as [->|Hne].
      * rewrite IH. split; intros [post H]; exists post.
        -- now rewrite H.
        -- now injection H.
      * split; [discriminate | intros [post H]; injection H; congruence].
Qed.

Lemma Contains_cons (c : ascii) (s sub : string) :
  GoStrings.Contains (String c s) sub
  = String.prefix sub (String c s) || GoStrings.Contains s sub.
Proof. reflexivity. Qed.

Lemma Contains_occurs (s sub : string) :
  GoStrings.Contains s sub = true <-> occurs_in sub s.
Proof.
  induction s as [|c s IH].
  - change (GoStrings.Contains "" sub) with (String.prefix sub "" || false).
    rewrite orb_false_r, prefix_true_iff. split.
    + intros [post H]. exists "", post. exact H.
    + intros [pre [post H]]. destruct pre; [now exists post | discriminate].
  - rewrite Contains_cons, orb_true_iff, prefix_true_iff, IH. split.
    + intros [[post H] | [pre [post H]]].
      * exists "", post. exact H.
      * exists (String c pre), post. simpl. now rewrite H.
    + intros [pre [post H]]. destruct pre as [|d pre]; simpl in H.
      * left. now exists post.
      * right. injection H as _ H. now exists pre, post.
Qed.

Lemma requiresToolUse_loop_true (patterns : list string) (text : string) :
  requiresToolUse_loop patterns text = true
  <-> exists pattern, In pattern patterns /\ GoStrings.Contains text pattern = true.
Proof.
  induction patterns as [|p ps IH]; simpl.
  - split; [discriminate | intros [? [[] _]]].
  - destruct (GoStrings.Contains text p) eqn:Hp.
    + split; [intros _; exists p; auto | reflexivity].
    + rewrite IH. split; intros [q [Hin Hq]]; exists q.
      * auto.
      * destruct Hin as [<-|Hin]; [congruence | auto].
Qed.

(** ** The analyzer *)

Lemma clamp_range (score : Z) : 0 <= clamp score <= 100.
Proof.
  unfold clamp.
  destruct (score <? 0) eqn:H0; [simpl; lia|].
  destruct (score >? 100) eqn:H1; lia.
Qed.

Lemma scoreToTier_cases (score : Z) :
  (scoreToTier score = TierSimple <-> score < 25)
  /\ (scoreToTier score = TierModerate <-> 25 <= score < 50)
  /\ (scoreToTier score = TierComplex <-> 50 <= score)
  /\ scoreToTier score <> TierCLI.
Proof.
  unfold scoreToTier, TierSimple, TierModerate, TierComplex, TierCLI.
  destruct (score <? 25) eqn:H25; [|destruct (score <? 50) eqn:H50];
    repeat split; intros; try lia; try discriminate.
Qed.

Section AnalyzeProperties.

Variable ToLower : string -> string.
Variable Fields : string -> list string.

Lemma Analyze_tool_branch (title description : string) (labels : list string) :
  requiresToolUse (combinedText ToLower title description) = true ->
  Analyze ToLower Fields title description labels
  = TaskComplexity.mk 100 TierCLI true ["requires-tool-use"].
Proof. intros H. unfold Analyze. now rewrite H. Qed.

Lemma Analyze_score_branch (title description : string) (labels : list string) :
  requiresToolUse (combinedText ToLower title description) = false ->
  exists raw signals,
    Analyze ToLower Fields title description labels
    = TaskComplexity.mk (clamp raw) (scoreToTier (clamp raw)) false signals.
Proof.
  intros H. unfold Analyze. rewrite H. eauto.
Qed.

Lemma Analyze_RequiresToolUse (title description : string) (labels : list string) :
  TaskComplexity.RequiresToolUse (Analyze ToLower Fields title description labels)
  = requiresToolUse (combinedText ToLower title description).
Proof.
  destruct (requiresToolUse (combinedText ToLower title description)) eqn:H.
  - now rewrite Analyze_tool_branch.
  - destruct (Analyze_score_branch title description labels H) as (raw & sg & ->).
    reflexivity.
Qed.

(** C1, as amended.  [Analyze] sets [RequiresToolUse] exactly when the
    lower-cased text made of the title, one space and the description
    contains one of the fixed tool-use phrases; the flag is the same for
    every list of labels; and whenever it is set the result has
    [MinTier = TierCLI] and [Score = 100], whatever the labels and the
    other signals are. *)
Theorem Analyze_tool_use_iff (title description : string) (labels : list string) :
  (TaskComplexity.RequiresToolUse (Analyze ToLower Fields title description labels) = true
   <-> exists pattern,
         In pattern toolPatterns
         /\ occurs_in pattern (ToLower (title +:+ " " +:+ description)))
  /\ (forall labels',
        TaskComplexity.RequiresToolUse (Analyze ToLower Fields title description labels')
        = TaskComplexity.RequiresToolUse (Analyze ToLower Fields title description labels))
  /\ (TaskComplexity.RequiresToolUse (Analyze ToLower Fields title description labels) = true ->
      TaskComplexity.MinTier (Analyze ToLower Fields title description labels) = TierCLI
      /\ TaskComplexity.Score (Analyze ToLower Fields title description labels) = 100).
Proof.
  repeat split.
  - rewrite Analyze_RequiresToolUse. unfold requiresToolUse.
    rewrite requiresToolUse_loop_true.
    intros [p [Hin Hp]]. exists p. split; [exact Hin|].
    now apply Contains_occurs.
  - intros [p [Hin Hp]]. rewrite Analyze_RequiresToolUse. unfold requiresToolUse.
    apply requiresToolUse_loop_true. exists p. split; [exact Hin|].
    now apply Contains_occurs.
  - intros labels'. now rewrite !Analyze_RequiresToolUse.
  - rewrite Analyze_RequiresToolUse in H. now rewrite Analyze_tool_branch.
  - rewrite Analyze_RequiresToolUse in H. now rewrite Analyze_tool_branch.
Qed.

(** C3.  The score [Analyze] returns lies in [0, 100]; and when
    [RequiresToolUse] is false the tier is Simple exactly for a score below
    25, Moderate exactly for a score from 25 to 49, Complex exactly for a
    score of 50 or more, and never [TierCLI]. *)
Theorem Analyze_score_and_tier (title description : string) (labels : list string) :
  0 <= TaskComplexity.Score (Analyze ToLower Fields title description labels) <= 100
  /\ (TaskComplexity.RequiresToolUse (Analyze ToLower Fields title description labels) = false ->
      (TaskComplexity.MinTier (Analyze ToLower Fields title description labels) = TierSimple
       <-> TaskComplexity.Score (Analyze ToLower Fields title description labels) < 25)
      /\ (TaskComplexity.MinTier (Analyze ToLower Fields title description labels) = TierModerate
          <-> 25 <= TaskComplexity.Score (Analyze ToLower Fields title description labels) < 50)
      /\ (TaskComplexity.MinTier (Analyze ToLower Fields title description labels) = TierComplex
          <-> 50 <= TaskComplexity.Score (Analyze ToLower Fields title description labels))
      /\ TaskComplexity.MinTier (Analyze ToLower Fields title description labels) <> TierCLI).
Proof.
  destruct (requiresToolUse (combinedText ToLower title description)) eqn:Htool.
  - rewrite (Analyze_tool_branch _ _ _ Htool). simpl.
    split; [lia | discriminate].
  - destruct (Analyze_score_branch title description labels Htool)
      as (raw & sg & ->). simpl.
    split; [apply clamp_range | intros _; apply scoreToTier_cases].
Qed.

End AnalyzeProperties.

(** C1 as stated fails when a phrase spans the title and the description:
    "deploy" and "to production" are joined with a space into a text that
    contains "deploy to", while their plain concatenation contains none of
    the phrases. *)
Lemma Analyze_joins_with_space :
  TaskComplexity.RequiresToolUse
    (Analyze GoStrings.ascii_ToLower GoStrings.ascii_Fields
       "deploy" "to production" []) = true
  /\ GoStrings.ascii_ToLower ("deploy" +:+ "to production") = "deployto production"
  /\ ((exists pattern,
         In pattern toolPatterns
         /\ occurs_in pattern (GoStrings.ascii_ToLower ("deploy" +:+ "to production")))
      -> False).
Proof.
  split; [vm_compute; reflexivity|]. split; [reflexivity|].
  intros [pattern [Hin Hocc]].
  apply Contains_occurs in Hocc.
  assert (H : requiresToolUse_loop toolPatterns
                (GoStrings.ascii_ToLower ("deploy" +:+ "to production")) = true)
    by (apply requiresToolUse_loop_true; eauto).
  vm_compute in H. discriminate.
Qed.

Example Analyze_create_file :
  Analyze GoStrings.ascii_ToLower GoStrings.ascii_Fields
    "Task" "Create a file called config.json" []
  = TaskComplexity.mk 100 TierCLI true ["requires-tool-use"].
Proof. vm_compute. reflexivity. Qed.

Example Analyze_summarize :
  Analyze GoStrings.ascii_ToLower GoStrings.ascii_Fields
    "Summarize" "Summarize the main points" []
  = TaskComplexity.mk 0 TierSimple false ["simple:summarize"].
Proof. vm_compute. reflexivity. Qed.

Example Analyze_label_clamps :
  TaskComplexity.Score
    (Analyze GoStrings.ascii_ToLower GoStrings.ascii_Fields
       "Implement" "architect and refactor the design" ["tier:fast"]) = 30
  /\ TaskComplexity.Score
       (Analyze GoStrings.ascii_ToLower GoStrings.ascii_Fields
          "Summarize" "the notes" ["tier:quality"]) = 60.
Proof. split; vm_compute; reflexivity. Qed.

(** ** Model selection *)

Lemma availableSet_fold (l : list string) (m : gmap string bool) (b : string) :
  default false (fold_left (fun m b => <[b := true]> m) l m !! b) = true
  <-> In b l \/ default false (m !! b) = true.
Proof.
  revert m; induction l as [|a l IH]; intros m; simpl.
  - tauto.
  - rewrite IH. destruct (decide (a = b)) as [->|Hne].
    + rewrite lookup_insert_eq. simpl. tauto.
    + rewrite lookup_insert_ne by exact Hne.
      split; [tauto | intros [[?|?]|?]; [congruence | tauto | tauto]].
Qed.

Lemma availableSet_lookup (l : list string) (b : string) :
  default false (availableSet l !! b) = true <-> In b l.
Proof.
  unfold availableSet. rewrite availableSet_fold, lookup_empty. simpl.
  split; [intros [?|?]; [assumption | discriminate] | tauto].
Qed.

Lemma meetsTier_true (minTier : ModelTier) (l : list string) (cap : ModelCapability.t) :
  meetsTier minTier (availableSet l) cap = true
  <-> ModelCapability.Tier cap >= minTier /\ In (ModelCapability.Backend cap) l.
Proof.
  unfold meetsTier. rewrite andb_true_iff, availableSet_lookup.
  rewrite Z.geb_le. split; intros [? ?]; split; auto; lia.
Qed.

Lemma filter_nil_iff {A : Type} (f : A -> bool) (l : list A) :
  List.filter f l = [] <-> forall x, In x l -> f x = false.
Proof.
  induction l as [|a l IH]; simpl.
  - split; [intros _ x [] | reflexivity].
  - destruct (f a) eqn:Ha.
    + split; [discriminate | intros H; specialize (H a (or_introl eq_refl)); congruence].
    + rewrite IH. split.
      * intros H x [<-|Hx]; auto.
      * intros H x Hx. apply H. now right.
Qed.

(** [SelectModel] returns [nil] exactly when tool use is required or the
    filter of the catalog is empty for the adjusted tier. *)
Lemma SelectModel_None_adjust (complexity : TaskComplexity.t) (intent : Intent)
    (availableBackends : list string) :
  SelectModel complexity intent availableBackends = None
  <-> TaskComplexity.RequiresToolUse complexity = true
      \/ noCandidate (adjustMinTier (TaskComplexity.MinTier complexity) intent)
           availableBackends.
Proof.
  unfold SelectModel, noCandidate.
  destruct (TaskComplexity.RequiresToolUse complexity); [tauto|].
  set (minTier := adjustMinTier _ _).
  destruct (List.filter _ ModelCapabilities) as [|c cs] eqn:Hf.
  - split; [intros _; right | reflexivity].
    intros cap Hin Hmeets. apply meetsTier_true in Hmeets.
    rewrite (proj1 (filter_nil_iff _ _) Hf cap Hin) in Hmeets. discriminate.
  - split; [discriminate | intros [H|H]; [discriminate|]].
    exfalso.
    assert (Hc : In c (List.filter (meetsTier minTier (availableSet availableBackends))
                          ModelCapabilities)) by (rewrite Hf; now left).
    apply filter_In in Hc as [Hin Hm].
    apply (H c Hin). now apply meetsTier_true.
Qed.

Lemma catalog_tiers :
  forall cap, In cap ModelCapabilities ->
    TierSimple <= ModelCapability.Tier cap <= TierComplex.
Proof.
  intros cap Hin. unfold ModelCapabilities in Hin. simpl in Hin.
  unfold TierSimple, TierModerate, TierComplex in *.
  repeat (destruct Hin as [<-|Hin]; [simpl; lia|]). contradiction.
Qed.

(** On the catalog, the tier the code computes and the tier of the
    specification admit the same entries, except for intent quality above
    Complex. *)
Lemma adjust_agrees_with_spec (minTier : ModelTier) (intent : Intent)
    (cap : ModelCapability.t) :
  In cap ModelCapabilities ->
  (intent = IntentQuality -> minTier <= TierComplex) ->
  (ModelCapability.Tier cap >= adjustMinTier minTier intent
   <-> ModelCapability.Tier cap >= spec_effectiveMinTier minTier intent).
Proof.
  intros Hin Hq. pose proof (catalog_tiers cap Hin) as Ht.
  unfold adjustMinTier, spec_effectiveMinTier, TierSimple, TierComplex in *.
  destruct (bool_decide (intent = IntentFast) || bool_decide (intent = IntentCheap)).
  - destruct (minTier >? 0) eqn:Hm; lia.
  - destruct (bool_decide (intent = IntentQuality)) eqn:Hi; [|tauto].
    apply bool_decide_eq_true in Hi. specialize (Hq Hi).
    destruct (minTier <? 2) eqn:Hm; lia.
Qed.

(** C2, as amended.  When the intent is not quality, or [MinTier] is at
    most Complex, [SelectModel] returns none exactly when tool use is
    required or no catalog entry has a tier of at least the effective
    minimum tier of the specification and an available backend.  For
    intent quality and a [MinTier] above Complex (that is, [TierCLI]) the
    tier is left unchanged and [SelectModel] returns none. *)
Theorem SelectModel_none_iff (complexity : TaskComplexity.t) (intent : Intent)
    (availableBackends : list string) :
  ((intent = IntentQuality -> TaskComplexity.MinTier complexity <= TierComplex) ->
   (SelectModel complexity intent availableBackends = None
    <-> TaskComplexity.RequiresToolUse complexity = true
        \/ noCandidate
             (spec_effectiveMinTier (TaskComplexity.MinTier complexity) intent)
             availableBackends))
  /\ (intent = IntentQuality ->
      TierComplex < TaskComplexity.MinTier complexity ->
      adjustMinTier (TaskComplexity.MinTier complexity) intent
      = TaskComplexity.MinTier complexity
      /\ SelectModel complexity intent availableBackends = None).
Proof.
  split.
  - intros Hq. rewrite SelectModel_None_adjust.
    unfold noCandidate. split; (intros [H|H]; [now left | right]);
      intros cap Hin [Ht Hb]; apply (H cap Hin); split; auto;
      now apply (adjust_agrees_with_spec _ intent cap Hin Hq).
  - intros -> Hgt.
    assert (Hadj : adjustMinTier (TaskComplexity.MinTier complexity) IntentQuality
                   = TaskComplexity.MinTier complexity).
    { unfold adjustMinTier. simpl.
      destruct (TaskComplexity.MinTier complexity <? TierComplex) eqn:Hm; [lia|reflexivity]. }
    split; [exact Hadj|].
    apply SelectModel_None_adjust. right. rewrite Hadj.
    intros cap Hin [Ht _]. pose proof (catalog_tiers cap Hin). lia.
Qed.

(** C2 as stated fails: a complexity with [MinTier = TierCLI] and no tool
    use, intent quality and the bedrock backend.  The tier "raised by one,
    capped at Complex" is Complex, which opus on bedrock meets; the code
    leaves the tier at [TierCLI] and returns none. *)
Lemma SelectModel_quality_above_complex :
  SelectModel (TaskComplexity.mk 0 TierCLI false []) IntentQuality ["bedrock"] = None
  /\ TaskComplexity.RequiresToolUse (TaskComplexity.mk 0 TierCLI false []) = false
  /\ spec_effectiveMinTier TierCLI IntentQuality = TierComplex
  /\ exists cap,
       In cap ModelCapabilities
       /\ ModelCapability.Tier cap >= spec_effectiveMinTier TierCLI IntentQuality
       /\ In (ModelCapability.Backend cap) ["bedrock"].
Proof.
  split; [vm_compute; reflexivity|].
  split; [reflexivity|].
  split; [reflexivity|].
  exists (ModelCapability.mk "bedrock" "opus" TierComplex 0.045%float 4).
  split; [simpl; tauto|].
  split; [vm_compute; discriminate | simpl; tauto].
Qed.

Lemma SelectModel_none_iff_witness :
  SelectModel (TaskComplexity.mk 60 TierComplex false []) IntentQuality ["grok"] = None
  <-> TaskComplexity.RequiresToolUse (TaskComplexity.mk 60 TierComplex false []) = true
      \/ noCandidate (spec_effectiveMinTier TierComplex IntentQuality) ["grok"].
Proof.
  apply (proj1 (SelectModel_none_iff
                  (TaskComplexity.mk 60 TierComplex false []) IntentQuality ["grok"])).
  intros _. simpl. unfold TierComplex. lia.
Defined.

(** C6 does not hold of the catalog: grok-3 (0.01 per 1K tokens) is listed
    before sonnet (0.009), and both are of tier Moderate. *)
Theorem ModelCapabilities_moderate_out_of_order :
  ModelCapabilities !! 2%nat
    = Some (ModelCapability.mk "grok" "grok-3" TierModerate 0.01%float 7)
  /\ ModelCapabilities !! 3%nat
       = Some (ModelCapability.mk "bedrock" "sonnet" TierModerate 0.009%float 6)
  /\ PrimFloat.ltb 0.009%float 0.01%float = true
  /\ (cheapestFirstWithinTier ModelCapabilities -> False).
Proof.
  split; [reflexivity|]. split; [reflexivity|]. split; [reflexivity|].
  intros H.
  specialize (H 2%nat 3%nat _ _ ltac:(lia) eq_refl eq_refl eq_refl).
  vm_compute in H. discriminate.
Qed.

(** The scan of [SelectModel] does not rely on that order: among the
    Moderate entries it still returns the cheaper sonnet. *)
Example SelectModel_moderate_cheapest :
  option_map ModelCapability.Model
    (SelectModel (TaskComplexity.mk 30 TierModerate false []) IntentAuto
       ["grok"; "bedrock"])
  = Some "sonnet".
Proof. vm_compute. reflexivity. Qed.

(** ** The router *)

Lemma Registry_List_Has (r : Registry.t) (name : string) :
  In name (Registry.List r) <-> Registry.Has r name = true.
Proof.
  unfold Registry.List, Registry.Has.
  rewrite <- list_elem_of_In, elem_of_elements, bool_decide_eq_true.
  reflexivity.
Qed.

Lemma legacyTier_names (tier : string) (intent : Intent) (minTier : ModelTier) :
  legacyTier tier = Some (intent, minTier) ->
  (tier = "haiku" /\ intent = IntentCheap /\ minTier = TierSimple)
  \/ (tier = "sonnet" /\ intent = IntentBalanced /\ minTier = TierModerate)
  \/ (tier = "opus" /\ intent = IntentQuality /\ minTier = TierComplex).
Proof.
  unfold legacyTier, IntentCheap, IntentBalanced, IntentQuality.
  destruct (bool_decide (tier = "haiku")) eqn:E1;
    [apply bool_decide_eq_true in E1; intros [= <- <-]; tauto|].
  destruct (bool_decide (tier = "sonnet")) eqn:E2;
    [apply bool_decide_eq_true in E2; intros [= <- <-]; tauto|].
  destruct (bool_decide (tier = "opus")) eqn:E3;
    [apply bool_decide_eq_true in E3; intros [= <- <-]; tauto|].
  discriminate.
Qed.

(** The legacy tier step passes its tier to [SelectModel] unchanged. *)
Lemma legacyTier_adjust (tier : string) (intent : Intent) (minTier : ModelTier) :
  legacyTier tier = Some (intent, minTier) ->
  adjustMinTier minTier intent = minTier.
Proof.
  intros H. apply legacyTier_names in H.
  destruct H as [(_ & -> & ->) | [(_ & -> & ->) | (_ & -> & ->)]]; reflexivity.
Qed.

Section RouteProperties.

Variable ToLower : string -> string.
Variable Fields : string -> list string.

Lemma routeByModelTag_unregistered (r : Router.t) (tag backend model : string) :
  TierToBackend !! tag = Some (backend, model) ->
  Registry.Has (Router.registry r) backend = false ->
  routeByModelTag r tag = findFallbackForTag r tag.
Proof. intros Hmap Hhas. unfold routeByModelTag. now rewrite Hmap, Hhas. Qed.

Lemma routeByLegacyTier_no_model (r : Router.t) (tier : string)
    (intent : Intent) (minTier : ModelTier) :
  legacyTier (ToLower tier) = Some (intent, minTier) ->
  (forall cap, In cap ModelCapabilities ->
     Registry.Has (Router.registry r) (ModelCapability.Backend cap) = true ->
     ModelCapability.Tier cap < minTier) ->
  routeByLegacyTier ToLower r tier
  = Some (RouteResult.mk RouteCLI "" ""
            ("no API model available for tier: " +:+ ToLower tier) false).
Proof.
  intros Hlegacy Hnone. unfold routeByLegacyTier. rewrite Hlegacy.
  assert (Hsel : SelectModel (TaskComplexity.mk 0 minTier false []) intent
                   (Registry.List (Router.registry r)) = None).
  { apply SelectModel_None_adjust. right. simpl.
    rewrite (legacyTier_adjust _ _ _ Hlegacy).
    intros cap Hin [Ht Hb]. apply Registry_List_Has in Hb.
    specialize (Hnone cap Hin Hb). lia. }
  now rewrite Hsel.
Qed.

(** C4.  With routing enabled: when the model tag maps through
    [TierToBackend] to a backend that is not registered and no substitute
    is selected, [routeByModelTag] decides nothing and [Route] goes on with
    the remaining steps, returning what it returns for the same hints
    without the tag.  When instead the tag step decides nothing, the tier
    hint is (after lower-casing) haiku, sonnet or opus and no catalog entry
    of a registered backend reaches the tier, [Route] returns the CLI
    decision with reason "no API model available for tier: <tier>", without
    looking at the task any further. *)
Theorem Route_legacy_hint_asymmetry (r : Router.t) (hints : RoutingHints.t) :
  RoutingConfig.Enabled (Router.config r) = true ->
  (forall backend model,
      RoutingHints.ModelTag hints <> "" ->
      TierToBackend !! RoutingHints.ModelTag hints = Some (backend, model) ->
      Registry.Has (Router.registry r) backend = false ->
      findFallbackForTag r (RoutingHints.ModelTag hints) = None ->
      routeByModelTag r (RoutingHints.ModelTag hints) = None
      /\ Route ToLower Fields r (Some hints)
         = Route ToLower Fields r (Some (clearModelTag hints)))
  /\ (forall intent minTier,
        RoutingHints.ModelTag hints = ""
        \/ routeByModelTag r (RoutingHints.ModelTag hints) = None ->
        RoutingHints.Tier hints <> "" ->
        legacyTier (ToLower (RoutingHints.Tier hints)) = Some (intent, minTier) ->
        (forall cap, In cap ModelCapabilities ->
           Registry.Has (Router.registry r) (ModelCapability.Backend cap) = true ->
           ModelCapability.Tier cap < minTier) ->
        Route ToLower Fields r (Some hints)
        = RouteResult.mk RouteCLI "" ""
            ("no API model available for tier: " +:+ ToLower (RoutingHints.Tier hints))
            false).
Proof.
  intros Hen. split.
  - intros backend model Htag Hmap Hhas Hfb.
    assert (Hnone : routeByModelTag r (RoutingHints.ModelTag hints) = None)
      by (rewrite (routeByModelTag_unregistered _ _ _ _ Hmap Hhas); exact Hfb).
    split; [exact Hnone|].
    unfold Route. rewrite Hen. simpl.
    rewrite (bool_decide_eq_false_2 _ Htag), Hnone.
    reflexivity.
  - intros intent minTier Hbytag Htier Hlegacy Hnone.
    unfold Route. rewrite Hen. simpl.
    assert (HbyTag :
      (if bool_decide (RoutingHints.ModelTag hints = "") then None
       else routeByModelTag r (RoutingHints.ModelTag hints)) = None).
    { case_bool_decide; [reflexivity|]. destruct Hbytag; [contradiction | assumption]. }
    rewrite HbyTag. unfold routeFromTier.
    rewrite (bool_decide_eq_false_2 _ Htier).
    now rewrite (routeByLegacyTier_no_model r _ intent minTier Hlegacy Hnone).
Qed.

End RouteProperties.

(** The asymmetry on one registry, with grok alone registered: the tag
    "opus" finds no substitute and the task goes on to be analysed; the
    tier "opus" ends at the CLI. *)
Lemma Route_legacy_hint_asymmetry_witness :
  (routeByModelTag grokOnly "opus" = None
   /\ Route GoStrings.ascii_ToLower GoStrings.ascii_Fields grokOnly
        (Some (summarizeHints "" "opus"))
      = Route GoStrings.ascii_ToLower GoStrings.ascii_Fields grokOnly
          (Some (clearModelTag (summarizeHints "" "opus"))))
  /\ Route GoStrings.ascii_ToLower GoStrings.ascii_Fields grokOnly
       (Some (summarizeHints "opus" ""))
     = RouteResult.mk RouteCLI "" "" "no API model available for tier: opus" false.
Proof.
  split.
  - apply (proj1 (Route_legacy_hint_asymmetry
                    GoStrings.ascii_ToLower GoStrings.ascii_Fields
                    grokOnly (summarizeHints "" "opus") eq_refl)
             "bedrock" "opus").
    + discriminate.
    + vm_compute. reflexivity.
    + vm_compute. reflexivity.
    + vm_compute. reflexivity.
  - apply (proj2 (Route_legacy_hint_asymmetry
                    GoStrings.ascii_ToLower GoStrings.ascii_Fields
                    grokOnly (summarizeHints "opus" "") eq_refl)
             IntentQuality TierComplex).
    + left. reflexivity.
    + discriminate.
    + reflexivity.
    + intros cap Hin Hreg. unfold ModelCapabilities in Hin. simpl in Hin.
      repeat (destruct Hin as [<-|Hin];
              [first [ vm_compute; reflexivity | vm_compute in Hreg; discriminate ]|]).
      contradiction.
Defined.

Example Route_tag_opus_grok_only :
  Route GoStrings.ascii_ToLower GoStrings.ascii_Fields grokOnly
    (Some (summarizeHints "" "opus"))
  = RouteResult.mk RouteAPI "grok" "grok-3-mini"
      "complexity=simple, selected=grok/grok-3-mini" true.
Proof. vm_compute. reflexivity. Qed.

(** ** The context manager *)

Lemma wrap_in_range (z : Z) : GoInt.in_range z -> GoInt.wrap z = z.
Proof.
  unfold GoInt.in_range, GoInt.min_int, GoInt.max_int, GoInt.wrap. intros H.
  rewrite Z.mod_small; lia.
Qed.

Lemma len_nonneg (s : string) : 0 <= GoStrings.len s.
Proof. unfold GoStrings.len. lia. Qed.

(** Every message costs at least two tokens: the overhead of 10 bytes. *)
Lemma estimateMessageTokens_lower (msg : Message.t) : 2 <= estimateMessageTokens msg.
Proof.
  unfold estimateMessageTokens.
  pose proof (len_nonneg (Message.Content msg)).
  pose proof (len_nonneg (Message.Role msg)).
  rewrite Z.quot_div_nonneg by lia.
  apply Z.div_le_lower_bound; lia.
Qed.

Lemma estimateTokens_fold (messages : list Message.t) (start : Z) :
  fold_left (fun total msg => total + estimateMessageTokens msg) messages start
  = start + estimateTokens messages.
Proof.
  unfold estimateTokens. revert start.
  induction messages as [|m l IH]; intros start; simpl; [lia|].
  rewrite (IH (start + _)), (IH (0 + _)). lia.
Qed.

Lemma estimateTokens_cons (msg : Message.t) (messages : list Message.t) :
  estimateTokens (msg :: messages) = estimateMessageTokens msg + estimateTokens messages.
Proof.
  unfold estimateTokens at 1. simpl. now rewrite estimateTokens_fold.
Qed.

Lemma estimateTokens_lower (messages : list Message.t) :
  2 * Z.of_nat (length messages) <= estimateTokens messages.
Proof.
  induction messages as [|m l IH]; [reflexivity|].
  rewrite estimateTokens_cons. pose proof (estimateMessageTokens_lower m).
  simpl length. lia.
Qed.

Lemma availableTokens_exact (cm : ContextManager.t) (maxTokens : Z) :
  GoInt.in_range (maxTokens - ContextManager.ReserveTokens cm) ->
  availableTokens cm maxTokens = maxTokens - ContextManager.ReserveTokens cm.
Proof. intros H. unfold availableTokens, GoInt.sub. now apply wrap_in_range. Qed.

(** C5.  A non-empty list whose estimate is at most the available budget
    (the [int] value of [maxTokens - cm.ReserveTokens]) comes back as it
    is, with no error, under every strategy. *)
Theorem PrepareContext_fits_unchanged (cm : ContextManager.t)
    (messages : list Message.t) (maxTokens : Z) (strategy : TruncationStrategy) :
  messages <> [] ->
  estimateTokens messages <= GoInt.sub maxTokens (ContextManager.ReserveTokens cm) ->
  PrepareContext cm messages maxTokens strategy = Return messages.
Proof.
  intros Hne Hfit. unfold PrepareContext, availableTokens.
  pose proof (estimateTokens_lower messages) as Hlow.
  destruct messages as [|m l]; [contradiction|]. simpl length in *.
  replace (Z.of_nat (S (length l)) =? 0) with false by (symmetry; apply Z.eqb_neq; lia).
  replace (GoInt.sub maxTokens (ContextManager.ReserveTokens cm) <=? 0) with false
    by (symmetry; apply Z.leb_gt; lia).
  now rewrite (proj2 (Z.leb_le _ _) Hfit).
Qed.

Lemma PrepareContext_fits_unchanged_witness :
  PrepareContext NewContextManager
    [Message.mk "system" "S"; Message.mk "user" "hi"] 10000 TruncateOldest
  = Return [Message.mk "system" "S"; Message.mk "user" "hi"].
Proof.
  apply PrepareContext_fits_unchanged.
  - discriminate.
  - vm_compute. discriminate.
Defined.

(** C10.  The empty list comes back empty, with no error, for every
    [maxTokens] and strategy, whatever the reserve; a non-empty list with
    a reserve of at least [maxTokens] (the difference being an [int]) gets
    the "too small for response reserve" error instead. *)
Theorem PrepareContext_empty (cm : ContextManager.t) (maxTokens : Z)
    (strategy : TruncationStrategy) :
  PrepareContext cm [] maxTokens strategy = Return []
  /\ (forall messages,
        messages <> [] ->
        ContextManager.ReserveTokens cm >= maxTokens ->
        GoInt.min_int <= maxTokens - ContextManager.ReserveTokens cm ->
        PrepareContext cm messages maxTokens strategy
        = Fail (ErrReserve maxTokens (ContextManager.ReserveTokens cm))).
Proof.
  split; [reflexivity|].
  intros messages Hne Hres Hrange. unfold PrepareContext, availableTokens, GoInt.sub.
  destruct messages as [|m l]; [contradiction|]. simpl length.
  replace (Z.of_nat (S (length l)) =? 0) with false by (symmetry; apply Z.eqb_neq; lia).
  rewrite wrap_in_range
    by (unfold GoInt.in_range, GoInt.min_int, GoInt.max_int in *; lia).
  now replace (maxTokens - ContextManager.ReserveTokens cm <=? 0) with true
    by (symmetry; apply Z.leb_le; lia).
Qed.

Example PrepareContext_empty_reserve_exceeds :
  PrepareContext NewContextManager [] 100 TruncateLongest = Return []
  /\ PrepareContext NewContextManager [Message.mk "user" "hi"] 100 TruncateLongest
     = Fail (ErrReserve 100 4096).
Proof. split; vm_compute; reflexivity. Qed.

(** *** Separating the system message *)

Lemma separate_later (i : Z) (messages : list Message.t)
    (systemMsg : option Message.t) (conversation : list Message.t) :
  0 < i ->
  separate i messages systemMsg conversation
  = (systemMsg, (conversation ++ messages)%list).
Proof.
  revert i conversation.
  induction messages as [|m l IH]; intros i conversation Hi; simpl.
  - now rewrite app_nil_r.
  - replace (i =? 0) with false by (symmetry; apply Z.eqb_neq; lia).
    rewrite andb_false_r, IH by lia. now rewrite <- app_assoc.
Qed.

Lemma separate_system (s : Message.t) (rest : list Message.t) :
  isSystem s = true ->
  separate 0 (s :: rest) None [] = (Some s, rest).
Proof. intros Hs. simpl. rewrite Hs. simpl. now rewrite separate_later by lia. Qed.

Lemma separate_no_system (m : Message.t) (rest : list Message.t) :
  isSystem m = false ->
  separate 0 (m :: rest) None [] = (None, m :: rest).
Proof. intros Hm. simpl. rewrite Hm. simpl. now rewrite separate_later by lia. Qed.

(** *** The loop of [truncateMiddle] has fuel to spare *)

Lemma middleLoop_fuel (fuel : nat) (middle : list Message.t) (remaining : Z) :
  forall left right currentTokens kept,
    right - left < Z.of_nat fuel ->
    middleLoop fuel middle remaining left right currentTokens kept
    = middleLoop (S fuel) middle remaining left right currentTokens kept.
Proof.
  induction fuel as [|fuel IH]; intros left right cur kept Hfuel.
  - simpl. now replace (left <=? right) with false by (symmetry; apply Z.leb_gt; lia).
  - remember (S fuel) as n eqn:Hn.
    rewrite Hn at 1. cbn [middleLoop].
    destruct (left <=? right); [|reflexivity].
    destruct (cur + estimateMessageTokens (at_index middle left) <=? remaining);
      [|reflexivity].
    destruct (left + 1 <=? right).
    + destruct (_ <=? remaining); [|reflexivity].
      subst n. apply IH. lia.
    + subst n. apply IH. lia.
Qed.

Lemma middleLoop_enough (n : nat) (middle : list Message.t) (remaining : Z) :
  (length middle <= n)%nat ->
  middleLoop n middle remaining 0 (Z.of_nat (length middle) - 1) 0 []
  = middleLoop (length middle) middle remaining 0 (Z.of_nat (length middle) - 1) 0 [].
Proof.
  induction 1 as [|n Hle IH]; [reflexivity|].
  rewrite <- IH. symmetry. apply middleLoop_fuel. lia.
Qed.

(** *** The system message stays first *)

Lemma truncateMessage_role (msg truncated : Message.t) (maxTokens : Z) :
  truncateMessage msg maxTokens = Return truncated ->
  Message.Role truncated = Message.Role msg.
Proof.
  unfold truncateMessage.
  destruct (_ <=? _); [now intros [= ->]|].
  destruct (_ || _); [discriminate | now intros [= <-]].
Qed.

Lemma truncateMessage_returns (msg : Message.t) (maxTokens : Z) :
  0 < maxTokens ->
  exists truncated, truncateMessage msg maxTokens = Return truncated.
Proof.
  intros Hpos. unfold truncateMessage.
  destruct (GoStrings.len (Message.Content msg) <=? maxTokens * 4) eqn:Hlen; [eauto|].
  apply Z.leb_gt in Hlen.
  replace (maxTokens * 4 - 3 <? 0) with false by (symmetry; apply Z.ltb_ge; lia).
  replace (maxTokens * 4 - 3 >? GoStrings.len (Message.Content msg)) with false
    by (symmetry; rewrite Z.gtb_ltb; apply Z.ltb_ge; lia).
  simpl. eauto.
Qed.

Lemma truncateOldest_system_first (s : Message.t) (rest : list Message.t) (maxTokens : Z) :
  isSystem s = true ->
  0 < maxTokens ->
  exists s' kept,
    truncateOldest (s :: rest) maxTokens = Return (s' :: kept)
    /\ Message.Role s' = "system"
    /\ (s' = s
        \/ (maxTokens <= estimateMessageTokens s
            /\ kept = []
            /\ truncateMessage s maxTokens = Return s')).
Proof.
  intros Hs Hpos.
  assert (Hrole : Message.Role s = "system") by now apply bool_decide_eq_true in Hs.
  unfold truncateOldest.
  destruct (Z.of_nat (length (s :: rest)) <? 2); [exists s, rest; auto|].
  rewrite (separate_system s rest Hs). cbn [systemCost withSystem].
  destruct (maxTokens - estimateMessageTokens s <=? 0) eqn:Hav.
  - apply Z.leb_le in Hav.
    destruct (truncateMessage_returns s maxTokens Hpos) as [t Ht].
    rewrite Ht. exists t, []. split; [reflexivity|]. split.
    + now rewrite (truncateMessage_role _ _ _ Ht).
    + right. repeat split; auto; lia.
  - eexists s, _. split; [reflexivity|]. auto.
Qed.

Lemma truncateMiddle_system_first (s : Message.t) (rest : list Message.t) (maxTokens : Z) :
  isSystem s = true ->
  exists kept, truncateMiddle (s :: rest) maxTokens = Return (s :: kept).
Proof.
  intros Hs. unfold truncateMiddle.
  destruct (Z.of_nat (length (s :: rest)) <=? 2); [eauto|].
  rewrite (separate_system s rest Hs). cbn [systemCost withSystem].
  destruct (Z.of_nat (length rest) <=? 2); [eauto|].
  destruct (_ <=? 0); eauto.
Qed.

Lemma findLongest_range (msgs : list Message.t) :
  forall i longestIdx longestLen,
    findLongest msgs i longestIdx longestLen = longestIdx
    \/ i <= findLongest msgs i longestIdx longestLen < i + Z.of_nat (length msgs).
Proof.
  induction msgs as [|m l IH]; intros i idx len0; simpl findLongest; [now left|].
  simpl length.
  destruct (isSystem m).
  - destruct (IH (i + 1) idx len0) as [->|H]; [now left | right; lia].
  - destruct (_ >? len0).
    + destruct (IH (i + 1) i (GoStrings.len (Message.Content m))) as [->|H]; right; lia.
    + destruct (IH (i + 1) idx len0) as [->|H]; [now left | right; lia].
Qed.

Lemma longestLoop_system_first (fuel : nat) (s : Message.t) (maxTokens : Z) :
  isSystem s = true ->
  forall rest, exists kept, longestLoop fuel (s :: rest) maxTokens = s :: kept.
Proof.
  intros Hs. induction fuel as [|fuel IH]; intros rest; simpl longestLoop; [eauto|].
  destruct (_ && _); [|eauto].
  rewrite Hs.
  destruct (findLongest_range rest (0 + 1) (-1) 0) as [->|Hrange].
  - simpl. eauto.
  - set (idx := findLongest rest (0 + 1) (-1) 0) in *.
    replace (idx <? 0) with false by (symmetry; apply Z.ltb_ge; lia).
    unfold removeAt.
    replace (Z.to_nat idx) with (S (Z.to_nat (idx - 1))) by lia.
    simpl firstn. simpl app. apply IH.
Qed.

Lemma truncation_keeps_system_first_aux (s : Message.t) (rest : list Message.t)
    (maxTokens : Z) :
  Message.Role s = "system" ->
  (0 < maxTokens ->
   exists s' kept,
     truncateOldest (s :: rest) maxTokens = Return (s' :: kept)
     /\ Message.Role s' = "system"
     /\ (s' = s
         \/ (maxTokens <= estimateMessageTokens s
             /\ kept = []
             /\ truncateMessage s maxTokens = Return s')))
  /\ (exists kept, truncateMiddle (s :: rest) maxTokens = Return (s :: kept))
  /\ (exists kept, truncateLongest (s :: rest) maxTokens = Return (s :: kept)).
Proof.
  intros Hrole.
  assert (Hs : isSystem s = true) by now apply bool_decide_eq_true.
  split; [|split].
  - intros Hpos. now apply truncateOldest_system_first.
  - now apply truncateMiddle_system_first.
  - unfold truncateLongest.
    destruct (longestLoop_system_first (length (s :: rest)) s maxTokens Hs rest)
      as [kept ->].
    eauto.
Qed.

(** Through [PrepareContext], whatever the strategy string. *)
Lemma PrepareContext_system_first (cm : ContextManager.t) (s : Message.t)
    (rest : list Message.t) (maxTokens : Z) (strategy : TruncationStrategy) :
  Message.Role s = "system" ->
  PrepareContext cm (s :: rest) maxTokens strategy
  = Fail (ErrReserve maxTokens (ContextManager.ReserveTokens cm))
  \/ exists s' kept,
       PrepareContext cm (s :: rest) maxTokens strategy = Return (s' :: kept)
       /\ Message.Role s' = "system".
Proof.
  intros Hrole. unfold PrepareContext.
  replace (Z.of_nat (length (s :: rest)) =? 0) with false
    by (symmetry; apply Z.eqb_neq; simpl length; lia).
  destruct (availableTokens cm maxTokens <=? 0) eqn:Hav; [now left|right].
  apply Z.leb_gt in Hav.
  destruct (_ <=? availableTokens cm maxTokens); [eauto|].
  destruct (truncation_keeps_system_first_aux s rest (availableTokens cm maxTokens) Hrole)
    as [Ho [[km Hm] [kl Hl]]].
  destruct (Ho Hav) as (s' & ko & Hoe & Hr & _).
  repeat case_bool_decide; eauto.
Qed.

(** C8.  Of a list whose first message has role "system", every
    truncation strategy returns a list whose first message has role
    "system": [truncateMiddle] and [truncateLongest] keep that message as
    it is; [truncateOldest], given the positive budget [PrepareContext]
    passes, keeps it as it is or, when the message alone reaches the
    budget, returns it alone with its content cut by [truncateMessage].
    So does [PrepareContext], for every strategy string, whenever it does
    not fail on the reserve. *)
Theorem truncation_keeps_system_first (s : Message.t) (rest : list Message.t)
    (maxTokens : Z) :
  Message.Role s = "system" ->
  (0 < maxTokens ->
   exists s' kept,
     truncateOldest (s :: rest) maxTokens = Return (s' :: kept)
     /\ Message.Role s' = "system"
     /\ (s' = s
         \/ (maxTokens <= estimateMessageTokens s
             /\ kept = []
             /\ truncateMessage s maxTokens = Return s')))
  /\ (exists kept, truncateMiddle (s :: rest) maxTokens = Return (s :: kept))
  /\ (exists kept, truncateLongest (s :: rest) maxTokens = Return (s :: kept))
  /\ (forall cm strategy,
        PrepareContext cm (s :: rest) maxTokens strategy
        = Fail (ErrReserve maxTokens (ContextManager.ReserveTokens cm))
        \/ exists s' kept,
             PrepareContext cm (s :: rest) maxTokens strategy = Return (s' :: kept)
             /\ Message.Role s' = "system").
Proof.
  intros Hrole.
  destruct (truncation_keeps_system_first_aux s rest maxTokens Hrole) as [Ho [Hm Hl]].
  repeat split; auto.
  intros cm strategy. now apply PrepareContext_system_first.
Qed.

Lemma truncation_keeps_system_first_witness :
  (exists s' kept,
     truncateOldest chat 5 = Return (s' :: kept)
     /\ Message.Role s' = "system"
     /\ (s' = Message.mk "system" "You are a helpful assistant"
         \/ (5 <= estimateMessageTokens (Message.mk "system" "You are a helpful assistant")
             /\ kept = []
             /\ truncateMessage (Message.mk "system" "You are a helpful assistant") 5
                = Return s')))
  /\ (exists kept,
        truncateMiddle chat 5
        = Return (Message.mk "system" "You are a helpful assistant" :: kept))
  /\ (exists kept,
        truncateLongest chat 5
        = Return (Message.mk "system" "You are a helpful assistant" :: kept)).
Proof.
  destruct (truncation_keeps_system_first
              (Message.mk "system" "You are a helpful assistant") (tl chat) 5 eq_refl)
    as [Holdest [Hmiddle [Hlongest _]]].
  split; [apply Holdest; lia | split; [exact Hmiddle | exact Hlongest]].
Defined.

Example truncateOldest_shrinks_system :
  truncateOldest chat 5 = Return [Message.mk "system" "You are a helpful..."].
Proof. vm_compute. reflexivity. Qed.

Example truncateOldest_keeps_recent :
  truncateOldest chat 25
  = Return [Message.mk "system" "You are a helpful assistant";
            Message.mk "user" "Second message";
            Message.mk "assistant" "Second response"].
Proof. vm_compute. reflexivity. Qed.

Example truncateLongest_chat_example :
  truncateLongest chat 30
  = Return [Message.mk "system" "You are a helpful assistant";
            Message.mk "user" "First message";
            Message.mk "user" "Second message"].
Proof. vm_compute. reflexivity. Qed.

(** *** [truncateLongest] *)

(** What the scan returns: [longestIdx] unchanged when no non-system
    message is longer than [longestLen]; otherwise the position of the
    first non-system message of maximal content length. *)
Lemma findLongest_spec (msgs : list Message.t) :
  forall i longestIdx longestLen,
    (findLongest msgs i longestIdx longestLen = longestIdx
     /\ forall m, In m msgs -> isSystem m = false ->
          GoStrings.len (Message.Content m) <= longestLen)
    \/ exists pre m post,
         msgs = (pre ++ m :: post)%list
         /\ findLongest msgs i longestIdx longestLen = i + Z.of_nat (length pre)
         /\ isSystem m = false
         /\ longestLen < GoStrings.len (Message.Content m)
         /\ (forall m', In m' pre -> isSystem m' = false ->
               GoStrings.len (Message.Content m') < GoStrings.len (Message.Content m))
         /\ (forall m', In m' post -> isSystem m' = false ->
               GoStrings.len (Message.Content m') <= GoStrings.len (Message.Content m)).
Proof.
  induction msgs as [|a l IH]; intros i idx len0; simpl findLongest.
  - left. split; [reflexivity | intros m []].
  - destruct (isSystem a) eqn:Ha.
    + destruct (IH (i + 1) idx len0)
        as [[Hr Hall] | (pre & m & post & -> & Hr & Hm & Hlen & Hpre & Hpost)].
      * left. split; [exact Hr|]. intros m [<-|Hin] Hns; [congruence | auto].
      * right. exists (a :: pre), m, post. repeat split; auto.
        -- rewrite Hr. simpl length. lia.
        -- intros m' [<-|Hin] Hns; [congruence | auto].
    + destruct (GoStrings.len (Message.Content a) >? len0) eqn:Hgt.
      * apply Z.gtb_lt in Hgt.
        destruct (IH (i + 1) i (GoStrings.len (Message.Content a)))
          as [[Hr Hall] | (pre & m & post & -> & Hr & Hm & Hlen & Hpre & Hpost)].
        -- right. exists [], a, l. repeat split; auto.
           ++ rewrite Hr. simpl. lia.
           ++ intros m' [].
        -- right. exists (a :: pre), m, post. repeat split; auto.
           ++ rewrite Hr. simpl length. lia.
           ++ lia.
           ++ intros m' [<-|Hin] Hns; [lia | auto].
      * rewrite Z.gtb_ltb in Hgt. apply Z.ltb_ge in Hgt.
        destruct (IH (i + 1) idx len0)
          as [[Hr Hall] | (pre & m & post & -> & Hr & Hm & Hlen & Hpre & Hpost)].
        -- left. split; [exact Hr|]. intros m [<-|Hin] Hns; [lia | auto].
        -- right. exists (a :: pre), m, post. repeat split; auto.
           ++ rewrite Hr. simpl length. lia.
           ++ intros m' [<-|Hin] Hns; [lia | auto].
Qed.

Lemma removeAt_middle (pre post : list Message.t) (m : Message.t) :
  removeAt (0 + Z.of_nat (length pre)) (pre ++ m :: post)%list = (pre ++ post)%list.
Proof.
  unfold removeAt.
  replace (Z.to_nat (0 + Z.of_nat (length pre))) with (length pre) by lia.
  replace (Z.to_nat (0 + Z.of_nat (length pre) + 1)) with (S (length pre)) by lia.
  induction pre as [|a pre IH]; simpl; [reflexivity|].
  simpl in IH. now rewrite IH.
Qed.

Lemma longest_run_finished (budget : Z) (msgs final : list Message.t) :
  longest_run budget msgs final -> run_finished budget final.
Proof. induction 1; auto. Qed.

Lemma len_zero_empty (s : string) : GoStrings.len s <= 0 -> s = "".
Proof. destruct s; [reflexivity | unfold GoStrings.len; simpl; lia]. Qed.

Lemma longestLoop_run (budget : Z) (fuel : nat) :
  forall msgs,
    (length msgs <= fuel)%nat ->
    contentful msgs ->
    longest_run budget msgs (longestLoop fuel msgs budget).
Proof.
  induction fuel as [|fuel IH]; intros msgs Hfuel Hcont; simpl longestLoop.
  - apply run_done. right; left. lia.
  - destruct (estimateTokens msgs >? budget) eqn:Hest; simpl andb.
    2:{ apply run_done. left. rewrite Z.gtb_ltb in Hest. now apply Z.ltb_ge in Hest. }
    destruct (Z.of_nat (length msgs) >? 1) eqn:Hlen.
    2:{ apply run_done. right; left. rewrite Z.gtb_ltb in Hlen.
        apply Z.ltb_ge in Hlen. lia. }
    apply Z.gtb_lt in Hest, Hlen.
    destruct (findLongest_spec msgs 0 (-1) 0)
      as [[-> Hall] | (pre & m & post & -> & -> & Hm & Hpos & Hpre & Hpost)].
    + simpl. apply run_done. right; right.
      intros m Hin. destruct (isSystem m) eqn:Hs; [reflexivity|].
      exfalso. apply (Hcont m Hin Hs). apply len_zero_empty. now apply Hall.
    + replace (0 + Z.of_nat (length pre) <? 0) with false
        by (symmetry; apply Z.ltb_ge; lia).
      rewrite removeAt_middle.
      apply run_drop; auto; [lia|].
      apply IH.
      * rewrite length_app in *. simpl length in Hfuel. lia.
      * intros m' Hin. apply Hcont. apply in_app_iff in Hin. apply in_app_iff.
        destruct Hin; [now left | right; now right].
Qed.

(** C7, as amended.  When every non-system message has some content,
    [truncateLongest] returns the list reached by dropping, while the list
    does not fit and has more than one message, its first longest
    non-system message; the list returned fits the budget, or has a single
    message, or has no non-system message. *)
Theorem truncateLongest_drops_longest (messages : list Message.t) (budget : Z) :
  (forall m, In m messages -> isSystem m = false -> Message.Content m <> "") ->
  exists result,
    truncateLongest messages budget = Return result
    /\ longest_run budget messages result
    /\ (estimateTokens result <= budget
        \/ (length result <= 1)%nat
        \/ (forall m, In m result -> isSystem m = true)).
Proof.
  intros Hcont. exists (longestLoop (length messages) messages budget).
  split; [reflexivity|].
  assert (Hrun : longest_run budget messages
                   (longestLoop (length messages) messages budget))
    by (apply longestLoop_run; [apply le_n | exact Hcont]).
  split; [exact Hrun | exact (longest_run_finished _ _ _ Hrun)].
Qed.

Lemma truncateLongest_drops_longest_witness :
  exists result,
    truncateLongest chat 30 = Return result
    /\ longest_run 30 chat result
    /\ (estimateTokens result <= 30
        \/ (length result <= 1)%nat
        \/ (forall m, In m result -> isSystem m = true)).
Proof.
  apply truncateLongest_drops_longest.
  intros m Hin _. unfold chat in Hin. simpl in Hin.
  repeat (destruct Hin as [<-|Hin]; [discriminate|]). contradiction.
Defined.

(** C7 as stated fails on a list of one non-system message that exceeds
    the budget: the loop needs more than one message to run, so the
    message is returned although it does not fit. *)
Lemma truncateLongest_single_message :
  truncateLongest [Message.mk "user" "hello world"] 1
  = Return [Message.mk "user" "hello world"]
  /\ 1 < estimateTokens [Message.mk "user" "hello world"]
  /\ isSystem (Message.mk "user" "hello world") = false.
Proof. split; [|split]; vm_compute; reflexivity. Qed.

Lemma removeAt_length (idx : Z) (msgs : list Message.t) :
  0 <= idx < Z.of_nat (length msgs) ->
  S (length (removeAt idx msgs)) = length msgs.
Proof.
  intros Hidx. unfold removeAt.
  rewrite length_app, firstn_length_le, length_skipn by lia. lia.
Qed.

(** The fuel [truncateLongest] gives its loop is never used up: more fuel
    changes nothing. *)
Lemma longestLoop_fuel (budget : Z) (fuel : nat) :
  forall msgs,
    (length msgs <= fuel)%nat ->
    longestLoop (S fuel) msgs budget = longestLoop fuel msgs budget.
Proof.
  induction fuel as [|fuel IH]; intros msgs Hfuel.
  - destruct msgs; [|simpl in Hfuel; lia].
    simpl. now rewrite andb_false_r.
  - remember (S fuel) as n eqn:Hn.
    cbn [longestLoop]. rewrite Hn at 2. cbn [longestLoop].
    destruct (_ && _); [|reflexivity].
    destruct (findLongest_range msgs 0 (-1) 0) as [->|Hrange]; [reflexivity|].
    replace (findLongest msgs 0 (-1) 0 <? 0) with false
      by (symmetry; apply Z.ltb_ge; lia).
    subst n. apply IH.
    pose proof (removeAt_length (findLongest msgs 0 (-1) 0) msgs ltac:(lia)). lia.
Qed.

(** Six messages of four tokens each and a budget of twenty: the first
    and the last are kept, then [c1] from the left, [c4] from the right
    (inserted at index [left]) and [c2] from the left (appended). *)
Example truncateMiddle_both_ends :
  truncateMiddle
    [Message.mk "user" "c0"; Message.mk "user" "c1"; Message.mk "user" "c2";
     Message.mk "user" "c3"; Message.mk "user" "c4"; Message.mk "user" "c5"] 20
  = Return
      [Message.mk "user" "c0"; Message.mk "user" "c1"; Message.mk "user" "c4";
       Message.mk "user" "c2"; Message.mk "user" "c5"].
Proof. vm_compute. reflexivity. Qed.

Example truncateMiddle_chat_example :
  truncateMiddle chat 40
  = Return [Message.mk "system" "You are a helpful assistant";
            Message.mk "user" "First message";
            Message.mk "assistant" "First response, somewhat longer than the rest";
            Message.mk "assistant" "Second response"].
Proof. vm_compute. reflexivity. Qed.

(** A non-system message whose content is empty is never selected by the
    scan (its length does not exceed the initial [longestLen] of 0). *)
Example truncateLongest_empty_content :
  truncateLongest
    [Message.mk "system" "You are a helpful assistant"; Message.mk "user" ""] 1
  = Return [Message.mk "system" "You are a helpful assistant"; Message.mk "user" ""].
Proof. vm_compute. reflexivity. Qed.

(** ** The cost tracker *)

Lemma Record_entries (ct : CostTracker.t) (now : Z) (backend model : string)
    (result : InvokeResult.t) (cost : CostEstimate.t) :
  CostTracker.entries (fst (Record_ ct now backend model result cost))
  = (CostTracker.entries ct
       ++ [CostEntry.mk now backend model
             (InvokeResult.InputTokens result) (InvokeResult.OutputTokens result)
             cost])%list.
Proof. reflexivity. Qed.

Lemma Summary_Record (ct : CostTracker.t) (now : Z) (backend model : string)
    (result : InvokeResult.t) (cost : CostEstimate.t) :
  Summary (fst (Record_ ct now backend model result cost))
  = summaryStep (Summary ct)
      (CostEntry.mk now backend model
         (InvokeResult.InputTokens result) (InvokeResult.OutputTokens result) cost).
Proof. unfold Summary. rewrite Record_entries. apply fold_left_app. Qed.

Lemma summaryStep_same (summary : gmap string BackendCostSummary.t) (entry : CostEntry.t) :
  BackendCostSummary.Invocations
    (default BackendCostSummary.zero
       (summaryStep summary entry !! CostEntry.Backend entry))
  = BackendCostSummary.Invocations
      (default BackendCostSummary.zero (summary !! CostEntry.Backend entry)) + 1.
Proof. unfold summaryStep. now rewrite lookup_insert_eq. Qed.

Lemma summaryStep_other (summary : gmap string BackendCostSummary.t)
    (entry : CostEntry.t) (backend : string) :
  backend <> CostEntry.Backend entry ->
  summaryStep summary entry !! backend = summary !! backend.
Proof. intros Hne. unfold summaryStep. now rewrite lookup_insert_ne. Qed.

(** C9.  [Record] adds [cost.TotalCost] to [Total()] (one float64
    addition) and one to [Summary()[backend].Invocations]; after [Reset],
    [Total()] is 0 and [Entries()] is empty. *)
Theorem Record_then_Reset (ct : CostTracker.t) (now : Z) (backend model : string)
    (result : InvokeResult.t) (cost : CostEstimate.t) :
  Total (fst (Record_ ct now backend model result cost))
  = PrimFloat.add (Total ct) (CostEstimate.TotalCost cost)
  /\ BackendCostSummary.Invocations
       (summaryOf (fst (Record_ ct now backend model result cost)) backend)
     = BackendCostSummary.Invocations (summaryOf ct backend) + 1
  /\ Total (Reset ct) = 0%float
  /\ Entries (Reset ct) = [].
Proof.
  split; [reflexivity|]. split; [|split; reflexivity].
  unfold summaryOf. rewrite Summary_Record.
  exact (summaryStep_same (Summary ct)
           (CostEntry.mk now backend model
              (InvokeResult.InputTokens result) (InvokeResult.OutputTokens result) cost)).
Qed.

(** The other backends' summaries are unchanged by [Record]. *)
Lemma Record_other_backend (ct : CostTracker.t) (now : Z) (backend model other : string)
    (result : InvokeResult.t) (cost : CostEstimate.t) :
  other <> backend ->
  summaryOf (fst (Record_ ct now backend model result cost)) other = summaryOf ct other.
Proof.
  intros Hne. unfold summaryOf. rewrite Summary_Record.
  now rewrite summaryStep_other.
Qed.

Example Record_twice :
  let result := InvokeResult.mk "ok" "haiku" 1000 250 "stop" in
  let cost := CostEstimate.mk 0.25%float 0.5%float 0.75%float "USD" "haiku" in
  let ct1 := fst (Record_ NewCostTracker 1 "bedrock" "haiku" result cost) in
  let ct2 := fst (Record_ ct1 2 "bedrock" "haiku" result cost) in
  Total ct2 = 1.5%float
  /\ summaryOf ct2 "bedrock" = BackendCostSummary.mk 2 2000 500 1.5%float
  /\ summaryOf ct2 "grok" = BackendCostSummary.zero
  /\ snd (Record_ ct1 2 "bedrock" "haiku" result cost)
     = [CostWarning 0.75%float 0.10%float "bedrock" "haiku" 1000 250].
Proof. vm_compute. repeat split. Qed.

(* ===================================================================== *)
(** * Further properties *)
(* ===================================================================== *)

(** ** Intents and labels *)

Lemma intentLabel_dec (label : string) : {intentLabel label} + {~ intentLabel label}.
Proof.
  unfold intentLabel, cheapHint, qualityHint.
  destruct (decide (label = "tier:fast")); [left; tauto|].
  destruct (decide (label = "tier:cheap")); [left; tauto|].
  destruct (decide (label = "tier:balanced")); [left; tauto|].
  destruct (decide (label = "tier:quality")); [left; tauto|].
  destruct (decide (label = "tier:powerful")); [left; tauto|].
  right. tauto.
Qed.

Lemma ExtractIntent_skip (label : string) (rest : list string) :
  ~ intentLabel label -> ExtractIntent (label :: rest) = ExtractIntent rest.
Proof.
  unfold intentLabel, cheapHint, qualityHint. intros Hno. simpl.
  repeat (case_bool_decide; [tauto|]). reflexivity.
Qed.

Lemma ExtractIntent_head (label : string) (rest : list string) :
  intentLabel label ->
  ExtractIntent (label :: rest) <> IntentAuto
  /\ (label = "tier:fast" -> ExtractIntent (label :: rest) = IntentFast)
  /\ (label = "tier:cheap" -> ExtractIntent (label :: rest) = IntentCheap)
  /\ (label = "tier:balanced" -> ExtractIntent (label :: rest) = IntentBalanced)
  /\ (qualityHint label -> ExtractIntent (label :: rest) = IntentQuality).
Proof.
  unfold intentLabel, cheapHint, qualityHint. intros H.
  destruct H as [[->| ->]|[->|[->| ->]]]; simpl;
    (split; [discriminate|]); repeat split; intros H;
    first [reflexivity | discriminate | destruct H; discriminate].
Qed.

(** X1.  [ExtractIntent] returns the intent named by the first label
    among tier:fast, tier:cheap, tier:balanced, tier:quality and
    tier:powerful, whatever follows it; it returns auto exactly when no
    label is one of these. *)
Theorem ExtractIntent_first_label (labels : list string) :
  (ExtractIntent labels = IntentAuto <-> forall l, In l labels -> ~ intentLabel l)
  /\ (forall pre label post,
        labels = (pre ++ label :: post)%list ->
        (forall l, In l pre -> ~ intentLabel l) ->
        (label = "tier:fast" -> ExtractIntent labels = IntentFast)
        /\ (label = "tier:cheap" -> ExtractIntent labels = IntentCheap)
        /\ (label = "tier:balanced" -> ExtractIntent labels = IntentBalanced)
        /\ (qualityHint label -> ExtractIntent labels = IntentQuality)).
Proof.
  split.
  - induction labels as [|a l IH]; [split; [intros _ x [] | reflexivity]|].
    destruct (intentLabel_dec a) as [Ha|Ha].
    + split.
      * intros H. now destruct (ExtractIntent_head a l Ha) as [Hne _].
      * intros H. exfalso. apply (H a); [now left | exact Ha].
    + rewrite (ExtractIntent_skip a l Ha), IH. split.
      * intros H x [<-|Hx]; auto.
      * intros H x Hx. apply H. now right.
  - intros pre label post -> Hpre.
    assert (Hskip : ExtractIntent (pre ++ label :: post) = ExtractIntent (label :: post)).
    { induction pre as [|a pre IH]; [reflexivity|].
      simpl app. rewrite ExtractIntent_skip by (apply Hpre; now left).
      apply IH. intros x Hx. apply Hpre. now right. }
    rewrite Hskip.
    repeat split; intros H;
      apply (ExtractIntent_head label post);
      unfold intentLabel, cheapHint; tauto.
Qed.

Example ExtractIntent_examples :
  ExtractIntent ["bug"; "tier:powerful"; "tier:fast"] = IntentQuality
  /\ ExtractIntent ["bug"; "urgent"] = IntentAuto
  /\ ExtractIntent [] = IntentAuto.
Proof. repeat split. Qed.

(** ** The label clamps of [Analyze] *)

Lemma labelStep_other (a : acc) (label : string) :
  ~ cheapHint label -> ~ qualityHint label -> labelStep a label = a.
Proof.
  unfold cheapHint, qualityHint, labelStep. intros Hc Hq.
  repeat (case_bool_decide; [tauto|]). reflexivity.
Qed.

Lemma labelStep_fold_other (labels : list string) (a : acc) :
  (forall l, In l labels -> ~ cheapHint l /\ ~ qualityHint l) ->
  fold_left labelStep labels a = a.
Proof.
  revert a. induction labels as [|l ls IH]; intros a H; [reflexivity|].
  simpl. rewrite labelStep_other by (apply H; now left).
  apply IH. intros x Hx. apply H. now right.
Qed.

Lemma labelStep_cheap (a : acc) (label : string) :
  cheapHint label -> fst (labelStep a label) <= 30.
Proof.
  unfold cheapHint, labelStep. intros [-> | ->]; simpl; lia.
Qed.

Lemma labelStep_quality (a : acc) (label : string) :
  qualityHint label -> 60 <= fst (labelStep a label).
Proof.
  unfold qualityHint, labelStep. intros [-> | ->]; simpl; lia.
Qed.

Section AnalyzeLabels.

Variable ToLower : string -> string.
Variable Fields : string -> list string.

(** Without tool use, the labels enter the result through the fold of
    [labelStep] alone. *)
Lemma Analyze_labels_fold (title description : string) :
  requiresToolUse (combinedText ToLower title description) = false ->
  exists start, forall labels,
    Analyze ToLower Fields title description labels
    = TaskComplexity.mk
        (clamp (fst (fold_left labelStep labels start)))
        (scoreToTier (clamp (fst (fold_left labelStep labels start))))
        false
        (snd (fold_left labelStep labels start)).
Proof.
  intros H. unfold Analyze. rewrite H. eexists. intros labels. reflexivity.
Qed.

(** X2.  When the task needs no tool use, the last tier hint among the
    labels decides the clamp: after tier:fast or tier:cheap the score is
    at most 30 and the tier Simple or Moderate; after tier:quality or
    tier:powerful the score is at least 60 and the tier Complex. *)
Theorem Analyze_last_hint_wins (title description : string)
    (pre post : list string) (label : string) :
  TaskComplexity.RequiresToolUse
    (Analyze ToLower Fields title description (pre ++ label :: post)) = false ->
  (forall l, In l post -> ~ cheapHint l /\ ~ qualityHint l) ->
  (cheapHint label ->
   TaskComplexity.Score
     (Analyze ToLower Fields title description (pre ++ label :: post)) <= 30
   /\ TaskComplexity.MinTier
        (Analyze ToLower Fields title description (pre ++ label :: post))
      <= TierModerate)
  /\ (qualityHint label ->
      60 <= TaskComplexity.Score
              (Analyze ToLower Fields title description (pre ++ label :: post))
      /\ TaskComplexity.MinTier
           (Analyze ToLower Fields title description (pre ++ label :: post))
         = TierComplex).
Proof.
  intros Htool Hpost.
  rewrite Analyze_RequiresToolUse in Htool.
  destruct (Analyze_labels_fold title description Htool) as [start Hfold].
  rewrite Hfold. cbn [TaskComplexity.Score TaskComplexity.MinTier].
  rewrite fold_left_app. cbn [fold_left].
  rewrite (labelStep_fold_other post) by exact Hpost.
  set (a := fold_left labelStep pre start).
  split; intros Hl.
  - pose proof (labelStep_cheap a label Hl) as Hle.
    pose proof (clamp_range (fst (labelStep a label))) as Hr.
    assert (Hc : clamp (fst (labelStep a label)) <= 30).
    { unfold clamp in *. destruct (_ <? 0); [simpl; lia|].
      destruct (_ >? 100) eqn:E; [apply Z.gtb_lt in E; lia | lia]. }
    split; [exact Hc|].
    unfold scoreToTier, TierSimple, TierModerate.
    destruct (_ <? 25); [lia|].
    destruct (_ <? 50) eqn:E; [lia | apply Z.ltb_ge in E; lia].
  - pose proof (labelStep_quality a label Hl) as Hge.
    assert (Hc : 60 <= clamp (fst (labelStep a label))).
    { unfold clamp. destruct (_ <? 0) eqn:E0; [apply Z.ltb_lt in E0; lia|].
      destruct (_ >? 100); lia. }
    split; [exact Hc|].
    unfold scoreToTier.
    destruct (_ <? 25) eqn:E1; [apply Z.ltb_lt in E1; lia|].
    destruct (_ <? 50) eqn:E2; [apply Z.ltb_lt in E2; lia | reflexivity].
Qed.

(** X3.  Labels that are not one of the four tier hints change nothing in
    the result of [Analyze]. *)
Theorem Analyze_ignores_other_labels (title description : string)
    (labels : list string) :
  (forall l, In l labels -> ~ cheapHint l /\ ~ qualityHint l) ->
  Analyze ToLower Fields title description labels
  = Analyze ToLower Fields title description [].
Proof.
  intros Hother.
  destruct (requiresToolUse (combinedText ToLower title description)) eqn:Htool.
  - now rewrite !Analyze_tool_branch.
  - destruct (Analyze_labels_fold title description Htool) as [start Hfold].
    rewrite !Hfold. now rewrite (labelStep_fold_other labels) by exact Hother.
Qed.

End AnalyzeLabels.

Lemma Analyze_last_hint_wins_witness :
  (TaskComplexity.Score
     (Analyze GoStrings.ascii_ToLower GoStrings.ascii_Fields
        "Implement" "architect and refactor the design"
        (["tier:quality"] ++ "tier:fast" :: ["bug"])) <= 30
   /\ TaskComplexity.MinTier
        (Analyze GoStrings.ascii_ToLower GoStrings.ascii_Fields
           "Implement" "architect and refactor the design"
           (["tier:quality"] ++ "tier:fast" :: ["bug"])) <= TierModerate).
Proof.
  apply (Analyze_last_hint_wins GoStrings.ascii_ToLower GoStrings.ascii_Fields
           "Implement" "architect and refactor the design"
           ["tier:quality"] ["bug"] "tier:fast").
  - vm_compute. reflexivity.
  - intros l [<-|[]]. unfold cheapHint, qualityHint.
    split; intros [H|H]; discriminate.
  - left. reflexivity.
Defined.

Lemma Analyze_ignores_other_labels_witness :
  Analyze GoStrings.ascii_ToLower GoStrings.ascii_Fields
    "Summarize" "Summarize the main points" ["bug"; "tier:balanced"; "model:grok"]
  = Analyze GoStrings.ascii_ToLower GoStrings.ascii_Fields
      "Summarize" "Summarize the main points" [].
Proof.
  apply Analyze_ignores_other_labels.
  intros l Hin. simpl in Hin. unfold cheapHint, qualityHint.
  repeat (destruct Hin as [<-|Hin]; [split; intros [H|H]; discriminate|]).
  contradiction.
Defined.

(** ** What [SelectModel] returns *)

Lemma SelectModel_Some_scan (complexity : TaskComplexity.t) (intent : Intent)
    (availableBackends : list string) (best : ModelCapability.t) :
  SelectModel complexity intent availableBackends = Some best ->
  TaskComplexity.RequiresToolUse complexity = false
  /\ exists first rest,
       List.filter
         (meetsTier (adjustMinTier (TaskComplexity.MinTier complexity) intent)
            (availableSet availableBackends))
         ModelCapabilities = first :: rest
       /\ best = fold_left (better intent) rest first.
Proof.
  unfold SelectModel.
  destruct (TaskComplexity.RequiresToolUse complexity); [discriminate|].
  destruct (List.filter _ ModelCapabilities) as [|first rest]; [discriminate|].
  intros [= <-]. eauto.
Qed.

Lemma capable_filter (minTier : ModelTier) (availableBackends : list string)
    (cap : ModelCapability.t) :
  In cap (List.filter (meetsTier minTier (availableSet availableBackends))
            ModelCapabilities)
  <-> capable minTier availableBackends cap.
Proof.
  unfold capable. rewrite filter_In, meetsTier_true. tauto.
Qed.

(** The scan over any selection of catalog entries ends on one of them,
    which no selected entry beats: the 32 selections are checked one by
    one. *)
Lemma scan_cheapest (f : ModelCapability.t -> bool) (intent : Intent)
    (first : ModelCapability.t) (rest : list ModelCapability.t) :
  intent <> IntentFast ->
  List.filter f ModelCapabilities = first :: rest ->
  In (fold_left (better intent) rest first) (first :: rest)
  /\ forall c, In c (first :: rest) ->
       c = fold_left (better intent) rest first
       \/ PrimFloat.ltb
            (ModelCapability.CostPer1K (fold_left (better intent) rest first))
            (ModelCapability.CostPer1K c) = true.
Proof.
  intros Hint. unfold better. rewrite (bool_decide_eq_false_2 _ Hint).
  unfold ModelCapabilities. cbn [List.filter].
  repeat match goal with |- context [f ?c] => destruct (f c) end;
    intros [= <- <-] || discriminate;
    (split; [vm_compute; tauto|]);
    intros c Hc; cbn [In] in Hc;
    repeat (destruct Hc as [<-|Hc];
            [first [left; vm_compute; reflexivity | right; vm_compute; reflexivity]|]);
    contradiction.
Qed.

Lemma scan_fastest (f : ModelCapability.t -> bool)
    (first : ModelCapability.t) (rest : list ModelCapability.t) :
  List.filter f ModelCapabilities = first :: rest ->
  In (fold_left (better IntentFast) rest first) (first :: rest)
  /\ forall c, In c (first :: rest) ->
       c = fold_left (better IntentFast) rest first
       \/ ModelCapability.SpeedScore c
          < ModelCapability.SpeedScore (fold_left (better IntentFast) rest first).
Proof.
  unfold ModelCapabilities. cbn [List.filter].
  repeat match goal with |- context [f ?c] => destruct (f c) end;
    intros [= <- <-] || discriminate;
    (split; [vm_compute; tauto|]);
    intros c Hc; cbn [In] in Hc;
    repeat (destruct Hc as [<-|Hc];
            [first [left; vm_compute; reflexivity | right; vm_compute; reflexivity]|]);
    contradiction.
Qed.

Lemma SelectModel_Some_capable (complexity : TaskComplexity.t) (intent : Intent)
    (availableBackends : list string) (best : ModelCapability.t) :
  SelectModel complexity intent availableBackends = Some best ->
  TaskComplexity.RequiresToolUse complexity = false
  /\ In best ModelCapabilities
  /\ ModelCapability.Tier best
     >= adjustMinTier (TaskComplexity.MinTier complexity) intent
  /\ In (ModelCapability.Backend best) availableBackends.
Proof.
  intros Hsel.
  destruct (SelectModel_Some_scan _ _ _ _ Hsel) as (Htool & first & rest & Hf & ->).
  split; [exact Htool|].
  assert (Hin : In (fold_left (better intent) rest first) (first :: rest)).
  { destruct (decide (intent = IntentFast)) as [->|Hne].
    - exact (proj1 (scan_fastest _ _ _ Hf)).
    - exact (proj1 (scan_cheapest _ _ _ _ Hne Hf)). }
  rewrite <- Hf in Hin. apply capable_filter in Hin. exact Hin.
Qed.


(** X4.  A model [SelectModel] returns is an entry of the catalog whose
    tier is at least the adjusted minimum tier and whose backend is among
    the available ones; and the task needs no tool use. *)
Theorem SelectModel_returns_capable (complexity : TaskComplexity.t) (intent : Intent)
    (availableBackends : list string) (best : ModelCapability.t) :
  SelectModel complexity intent availableBackends = Some best ->
  TaskComplexity.RequiresToolUse complexity = false
  /\ In best ModelCapabilities
  /\ ModelCapability.Tier best
     >= adjustMinTier (TaskComplexity.MinTier complexity) intent
  /\ In (ModelCapability.Backend best) availableBackends.
Proof.
  intros Hsel.
  destruct (SelectModel_Some_scan _ _ _ _ Hsel) as (Htool & first & rest & Hf & ->).
  split; [exact Htool|].
  assert (Hin : In (fold_left (better intent) rest first) (first :: rest)).
  { destruct (decide (intent = IntentFast)) as [->|Hne].
    - exact (proj1 (scan_fastest _ _ _ Hf)).
    - exact (proj1 (scan_cheapest _ _ _ _ Hne Hf)). }
  rewrite <- Hf in Hin. apply capable_filter in Hin. exact Hin.
Qed.

(** X5.  For every intent but fast, the model returned is the cheapest of
    the capable entries: each other one costs strictly more per 1K
    tokens. *)
Theorem SelectModel_cheapest (complexity : TaskComplexity.t) (intent : Intent)
    (availableBackends : list string) (best : ModelCapability.t) :
  intent <> IntentFast ->
  SelectModel complexity intent availableBackends = Some best ->
  forall cap,
    capable (adjustMinTier (TaskComplexity.MinTier complexity) intent)
      availableBackends cap ->
    cap = best
    \/ PrimFloat.ltb (ModelCapability.CostPer1K best) (ModelCapability.CostPer1K cap)
       = true.
Proof.
  intros Hne Hsel cap Hcap.
  destruct (SelectModel_Some_scan _ _ _ _ Hsel) as (_ & first & rest & Hf & ->).
  apply capable_filter in Hcap. rewrite Hf in Hcap.
  exact (proj2 (scan_cheapest _ _ _ _ Hne Hf) cap Hcap).
Qed.

(** X6.  For intent fast, the model returned is the fastest of the
    capable entries: each other one has a strictly lower speed score. *)
Theorem SelectModel_fastest (complexity : TaskComplexity.t)
    (availableBackends : list string) (best : ModelCapability.t) :
  SelectModel complexity IntentFast availableBackends = Some best ->
  forall cap,
    capable (adjustMinTier (TaskComplexity.MinTier complexity) IntentFast)
      availableBackends cap ->
    cap = best
    \/ ModelCapability.SpeedScore cap < ModelCapability.SpeedScore best.
Proof.
  intros Hsel cap Hcap.
  destruct (SelectModel_Some_scan _ _ _ _ Hsel) as (_ & first & rest & Hf & ->).
  apply capable_filter in Hcap. rewrite Hf in Hcap.
  exact (proj2 (scan_fastest _ _ _ Hf) cap Hcap).
Qed.

(** X7.  [SelectModel] looks at which backends are available, not at
    their order or repetition in the list. *)
Theorem SelectModel_available_as_set (complexity : TaskComplexity.t) (intent : Intent)
    (available1 available2 : list string) :
  (forall name, In name available1 <-> In name available2) ->
  SelectModel complexity intent available1 = SelectModel complexity intent available2.
Proof.
  intros Hsame. unfold SelectModel.
  destruct (TaskComplexity.RequiresToolUse complexity); [reflexivity|].
  set (minTier := adjustMinTier _ _).
  assert (Hf : List.filter (meetsTier minTier (availableSet available1)) ModelCapabilities
               = List.filter (meetsTier minTier (availableSet available2)) ModelCapabilities).
  { apply filter_ext. intros cap.
    destruct (meetsTier minTier (availableSet available1) cap) eqn:H1;
      destruct (meetsTier minTier (availableSet available2) cap) eqn:H2;
      try reflexivity.
    - apply meetsTier_true in H1. destruct H1 as [Ht Hb]. apply Hsame in Hb.
      rewrite (proj2 (meetsTier_true _ _ _) (conj Ht Hb)) in H2. discriminate.
    - apply meetsTier_true in H2. destruct H2 as [Ht Hb]. apply Hsame in Hb.
      rewrite (proj2 (meetsTier_true _ _ _) (conj Ht Hb)) in H1. discriminate. }
  now rewrite Hf.
Qed.

(** X8.  Asking for fast or cheap never loses a route: whenever
    [SelectModel] finds a model for a complexity under some intent, it
    finds one under fast and under cheap. *)
Theorem SelectModel_cheaper_intent_still_routes (complexity : TaskComplexity.t)
    (intent : Intent) (availableBackends : list string) :
  SelectModel complexity intent availableBackends <> None ->
  SelectModel complexity IntentFast availableBackends <> None
  /\ SelectModel complexity IntentCheap availableBackends <> None.
Proof.
  intros Hsome.
  assert (Hle : forall lower,
            lower = IntentFast \/ lower = IntentCheap ->
            adjustMinTier (TaskComplexity.MinTier complexity) lower
            <= adjustMinTier (TaskComplexity.MinTier complexity) intent).
  { intros lower Hl. unfold adjustMinTier at 1.
    replace (bool_decide (lower = IntentFast) || bool_decide (lower = IntentCheap))
      with true by (destruct Hl as [-> | ->]; reflexivity).
    unfold adjustMinTier, TierSimple, TierComplex.
    destruct (_ || _).
    - lia.
    - destruct (bool_decide (intent = IntentQuality)).
      + destruct (_ <? 2); destruct (_ >? 0); lia.
      + destruct (_ >? 0); lia. }
  split; intros Hnone; apply Hsome; apply SelectModel_None_adjust;
    apply SelectModel_None_adjust in Hnone;
    (destruct Hnone as [Ht|Hno]; [now left | right]);
    intros cap Hin [Ht Hb]; apply (Hno cap Hin); (split; [|exact Hb]).
  - specialize (Hle IntentFast (or_introl eq_refl)). lia.
  - specialize (Hle IntentCheap (or_intror eq_refl)). lia.
Qed.

Lemma SelectModel_returns_capable_witness :
  TaskComplexity.RequiresToolUse (TaskComplexity.mk 30 TierModerate false []) = false
  /\ In (ModelCapability.mk "bedrock" "sonnet" TierModerate 0.009%float 6)
       ModelCapabilities
  /\ ModelCapability.Tier (ModelCapability.mk "bedrock" "sonnet" TierModerate 0.009%float 6)
     >= adjustMinTier TierModerate IntentAuto
  /\ In "bedrock" ["grok"; "bedrock"].
Proof.
  apply (SelectModel_returns_capable (TaskComplexity.mk 30 TierModerate false [])
           IntentAuto ["grok"; "bedrock"]
           (ModelCapability.mk "bedrock" "sonnet" TierModerate 0.009%float 6)).
  vm_compute. reflexivity.
Defined.

Lemma SelectModel_cheapest_witness :
  ModelCapability.mk "grok" "grok-3" TierModerate 0.01%float 7
  = ModelCapability.mk "bedrock" "sonnet" TierModerate 0.009%float 6
  \/ PrimFloat.ltb 0.009%float 0.01%float = true.
Proof.
  apply (SelectModel_cheapest (TaskComplexity.mk 30 TierModerate false [])
           IntentAuto ["grok"; "bedrock"]
           (ModelCapability.mk "bedrock" "sonnet" TierModerate 0.009%float 6)
           ltac:(discriminate) ltac:(vm_compute; reflexivity)
           (ModelCapability.mk "grok" "grok-3" TierModerate 0.01%float 7)).
  unfold capable. split; [simpl; tauto|]. split; [vm_compute; discriminate | simpl; tauto].
Defined.

Lemma SelectModel_fastest_witness :
  ModelCapability.mk "bedrock" "haiku" TierSimple 0.001%float 8
  = ModelCapability.mk "grok" "grok-3-mini" TierSimple 0.0001%float 9
  \/ 8 < 9.
Proof.
  apply (SelectModel_fastest (TaskComplexity.mk 30 TierModerate false [])
           ["grok"; "bedrock"]
           (ModelCapability.mk "grok" "grok-3-mini" TierSimple 0.0001%float 9)
           ltac:(vm_compute; reflexivity)
           (ModelCapability.mk "bedrock" "haiku" TierSimple 0.001%float 8)).
  unfold capable. split; [simpl; tauto|]. split; [vm_compute; discriminate | simpl; tauto].
Defined.

Lemma SelectModel_available_as_set_witness :
  SelectModel (TaskComplexity.mk 30 TierModerate false []) IntentAuto
    ["grok"; "bedrock"; "grok"]
  = SelectModel (TaskComplexity.mk 30 TierModerate false []) IntentAuto
      ["bedrock"; "grok"].
Proof.
  apply SelectModel_available_as_set.
  intros name. simpl. tauto.
Defined.

Lemma SelectModel_cheaper_intent_still_routes_witness :
  SelectModel (TaskComplexity.mk 60 TierComplex false []) IntentFast ["bedrock"] <> None
  /\ SelectModel (TaskComplexity.mk 60 TierComplex false []) IntentCheap ["bedrock"] <> None.
Proof.
  apply (SelectModel_cheaper_intent_still_routes
           (TaskComplexity.mk 60 TierComplex false []) IntentQuality ["bedrock"]).
  vm_compute. discriminate.
Defined.

(** ** What [Route] returns *)

Lemma adjustMinTier_upper (minTier : ModelTier) (intent : Intent) :
  minTier <= TierComplex -> adjustMinTier minTier intent <= TierComplex.
Proof.
  unfold adjustMinTier, TierComplex, TierSimple. intros H.
  destruct (_ || _); [destruct (_ >? 0); lia|].
  destruct (bool_decide _); [|lia].
  destruct (minTier <? 2) eqn:E; [apply Z.ltb_lt in E; lia | lia].
Qed.

(** With bedrock available, every tier up to Complex finds a model. *)
Lemma SelectModel_bedrock (minTier : ModelTier) (intent : Intent)
    (availableBackends : list string) :
  minTier <= TierComplex ->
  In "bedrock" availableBackends ->
  exists selected,
    SelectModel (TaskComplexity.mk 0 minTier false []) intent availableBackends
    = Some selected.
Proof.
  intros Hle Hin.
  destruct (SelectModel _ intent availableBackends) as [selected|] eqn:Hsel; [eauto|].
  apply SelectModel_None_adjust in Hsel. destruct Hsel as [Ht|Hno]; [discriminate|].
  exfalso.
  apply (Hno (ModelCapability.mk "bedrock" "opus" TierComplex 0.045%float 4)).
  - simpl. tauto.
  - split; [|exact Hin].
    pose proof (adjustMinTier_upper minTier intent Hle). simpl in *. lia.
Qed.

Section RouteResults.

Variable ToLower : string -> string.
Variable Fields : string -> list string.

Lemma selected_registered (r : Router.t) (complexity : TaskComplexity.t)
    (intent : Intent) (selected : ModelCapability.t) :
  SelectModel complexity intent (Registry.List (Router.registry r)) = Some selected ->
  Registry.Has (Router.registry r) (ModelCapability.Backend selected) = true.
Proof.
  intros Hsel. apply SelectModel_Some_capable in Hsel.
  apply Registry_List_Has. tauto.
Qed.

Lemma findFallbackForTag_api (r : Router.t) (tag : string) (result : RouteResult.t) :
  findFallbackForTag r tag = Some result -> apiResult r result.
Proof.
  unfold findFallbackForTag.
  destruct (SelectModel _ _ _) as [selected|] eqn:Hsel; [|discriminate].
  intros [= <-]. repeat split. exact (selected_registered _ _ _ _ Hsel).
Qed.

Lemma routeByModelTag_api (r : Router.t) (tag : string) (result : RouteResult.t) :
  routeByModelTag r tag = Some result -> apiResult r result.
Proof.
  unfold routeByModelTag.
  destruct (TierToBackend !! tag) as [[backend model]|].
  - destruct (Registry.Has (Router.registry r) backend) eqn:Hhas.
    + intros [= <-]. repeat split. exact Hhas.
    + apply findFallbackForTag_api.
  - destruct (Registry.Has (Router.registry r) tag) eqn:Hhas; [|discriminate].
    intros [= <-]. repeat split. exact Hhas.
Qed.

Lemma routeByLegacyTier_api (r : Router.t) (tier : string) (result : RouteResult.t) :
  routeByLegacyTier ToLower r tier = Some result ->
  RouteResult.Decision result = RouteAPI ->
  apiResult r result.
Proof.
  unfold routeByLegacyTier.
  destruct (legacyTier (ToLower tier)) as [[intent minTier]|]; [|discriminate].
  destruct (SelectModel _ _ _) as [selected|] eqn:Hsel.
  - intros [= <-] _. repeat split. exact (selected_registered _ _ _ _ Hsel).
  - intros [= <-]. discriminate.
Qed.

Lemma routeByAnalysis_api (r : Router.t) (hints : RoutingHints.t) (intent : Intent) :
  RouteResult.Decision (routeByAnalysis ToLower Fields r hints intent) = RouteAPI ->
  apiResult r (routeByAnalysis ToLower Fields r hints intent).
Proof.
  unfold routeByAnalysis.
  destruct (TaskComplexity.RequiresToolUse _); [discriminate|].
  destruct (_ && _); [discriminate|].
  destruct (_ =? 0); [discriminate|].
  destruct (SelectModel _ _ _) as [selected|] eqn:Hsel; [|discriminate].
  intros _. repeat split. exact (selected_registered _ _ _ _ Hsel).
Qed.

Lemma Route_api (r : Router.t) (hints : option RoutingHints.t) :
  RouteResult.Decision (Route ToLower Fields r hints) = RouteAPI ->
  RoutingConfig.Enabled (Router.config r) = true
  /\ apiResult r (Route ToLower Fields r hints).
Proof.
  unfold Route.
  destruct (RoutingConfig.Enabled (Router.config r)); [|discriminate].
  cbn [negb]. intros Hapi. split; [reflexivity|]. revert Hapi.
  destruct (if bool_decide (RoutingHints.ModelTag _ = "") then None else _)
    as [result|] eqn:Htag.
  - intros _. revert Htag. case_bool_decide; [discriminate|].
    apply routeByModelTag_api.
  - unfold routeFromTier.
    destruct (if bool_decide (RoutingHints.Tier _ = "") then None else _)
      as [result|] eqn:Htier.
    + clear Htag. revert Htier. case_bool_decide; [discriminate|].
      apply routeByLegacyTier_api.
    + apply routeByAnalysis_api.
Qed.

(** X9.  Whenever [Route] decides for the API, routing is enabled, the
    backend it names is registered, and the result carries the
    configuration's fallback-to-CLI flag. *)
Theorem Route_api_names_registered_backend (r : Router.t)
    (hints : option RoutingHints.t) :
  RouteResult.Decision (Route ToLower Fields r hints) = RouteAPI ->
  RoutingConfig.Enabled (Router.config r) = true
  /\ Registry.Has (Router.registry r)
       (RouteResult.Backend (Route ToLower Fields r hints)) = true
  /\ RouteResult.FallbackToCLI (Route ToLower Fields r hints)
     = RoutingConfig.FallbackToCLI (Router.config r).
Proof.
  intros Hapi. destruct (Route_api r hints Hapi) as [Hen (_ & Hhas & Hfb)]. auto.
Qed.

(** Every result of [Route] is an API or a CLI decision. *)
Lemma Route_decision (r : Router.t) (hints : option RoutingHints.t) :
  RouteResult.Decision (Route ToLower Fields r hints) = RouteAPI
  \/ RouteResult.Decision (Route ToLower Fields r hints) = RouteCLI.
Proof.
  unfold Route. destruct (negb _); [now right|].
  destruct (if bool_decide (RoutingHints.ModelTag _ = "") then None else _)
    as [result|] eqn:Htag.
  - revert Htag. case_bool_decide; [discriminate|]. intros Htag.
    left. exact (proj1 (routeByModelTag_api _ _ _ Htag)).
  - unfold routeFromTier.
    destruct (if bool_decide (RoutingHints.Tier _ = "") then None else _)
      as [result|] eqn:Htier.
    + clear Htag. revert Htier. case_bool_decide; [discriminate|].
      unfold routeByLegacyTier.
      destruct (legacyTier _) as [[i m]|]; [|discriminate].
      destruct (SelectModel _ _ _); intros [= <-]; auto.
    + unfold routeByAnalysis.
      destruct (TaskComplexity.RequiresToolUse _); [now right|].
      destruct (_ && _); [now right|].
      destruct (_ =? 0); [now right|].
      destruct (SelectModel _ _ _); auto.
Qed.

(** X10.  With no backend registered, [Route] sends every task to the
    CLI, whatever its hints and whatever the configuration. *)
Theorem Route_empty_registry_cli (config : RoutingConfig.t)
    (hints : option RoutingHints.t) :
  RouteResult.Decision (Route ToLower Fields (Router.mk config ∅) hints) = RouteCLI.
Proof.
  destruct (Route_decision (Router.mk config ∅) hints) as [Hapi|Hcli]; [|exact Hcli].
  destruct (Route_api _ _ Hapi) as [_ (_ & Hhas & _)].
  unfold Registry.Has in Hhas. simpl in Hhas.
  apply bool_decide_eq_true in Hhas. set_solver.
Qed.

(** X11.  A legacy model tag whose backend is registered decides the
    route before the task is looked at: the result is the tag's backend
    and model, whatever the title, description, tier and labels are (a
    task that asks for tool use included). *)
Theorem Route_registered_tag_first (r : Router.t) (hints : RoutingHints.t)
    (backend model : string) :
  RoutingConfig.Enabled (Router.config r) = true ->
  TierToBackend !! RoutingHints.ModelTag hints = Some (backend, model) ->
  Registry.Has (Router.registry r) backend = true ->
  Route ToLower Fields r (Some hints)
  = RouteResult.mk RouteAPI backend model
      ("legacy model tag: " +:+ RoutingHints.ModelTag hints)
      (RoutingConfig.FallbackToCLI (Router.config r)).
Proof.
  intros Hen Hmap Hhas. unfold Route. rewrite Hen. simpl.
  assert (Hne : RoutingHints.ModelTag hints <> "").
  { intros Heq. rewrite Heq in Hmap. vm_compute in Hmap. discriminate. }
  rewrite (bool_decide_eq_false_2 _ Hne).
  unfold routeByModelTag. now rewrite Hmap, Hhas.
Qed.

(** X12.  With bedrock registered, a legacy hint always ends at an API
    model: a model tag of the table is routed to its own backend or to a
    substitute, and a tier of haiku, sonnet or opus (when the tag step
    decides nothing) is routed to a model as well. *)
Theorem Route_bedrock_serves_legacy_hints (r : Router.t) (hints : RoutingHints.t) :
  RoutingConfig.Enabled (Router.config r) = true ->
  Registry.Has (Router.registry r) "bedrock" = true ->
  (is_Some (TierToBackend !! RoutingHints.ModelTag hints) ->
   RouteResult.Decision (Route ToLower Fields r (Some hints)) = RouteAPI)
  /\ (RoutingHints.ModelTag hints = "" ->
      RoutingHints.Tier hints <> "" ->
      is_Some (legacyTier (ToLower (RoutingHints.Tier hints))) ->
      RouteResult.Decision (Route ToLower Fields r (Some hints)) = RouteAPI).
Proof.
  intros Hen Hbed. apply Registry_List_Has in Hbed.
  split.
  - intros [[backend model] Hmap].
    unfold Route. rewrite Hen. simpl.
    assert (Hne : RoutingHints.ModelTag hints <> "").
    { intros Heq. rewrite Heq in Hmap. vm_compute in Hmap. discriminate. }
    rewrite (bool_decide_eq_false_2 _ Hne).
    unfold routeByModelTag. rewrite Hmap.
    destruct (Registry.Has _ backend); [reflexivity|].
    unfold findFallbackForTag.
    match goal with
    | |- context [SelectModel (TaskComplexity.mk 0 ?m false []) ?i ?l] =>
        destruct (SelectModel_bedrock m i l) as [selected ->];
          [|exact Hbed|reflexivity]
    end.
    unfold TierComplex, TierModerate, TierSimple.
    repeat destruct (bool_decide _); lia.
  - intros Htag Htier [[intent minTier] Hlegacy].
    unfold Route. rewrite Hen. simpl.
    rewrite (bool_decide_eq_true_2 _ Htag).
    unfold routeFromTier. rewrite (bool_decide_eq_false_2 _ Htier).
    unfold routeByLegacyTier. rewrite Hlegacy.
    destruct (SelectModel_bedrock minTier intent
                (Registry.List (Router.registry r))) as [selected ->];
      [|exact Hbed|reflexivity].
    apply legacyTier_names in Hlegacy.
    unfold TierComplex, TierModerate, TierSimple in *.
    destruct Hlegacy as [(_ & _ & ->)|[(_ & _ & ->)|(_ & _ & ->)]]; lia.
Qed.

(** X13.  With routing enabled and no legacy hint, a task whose
    lower-cased title, space and description contain a tool-use phrase is
    sent to the CLI, whatever backends are registered and whatever its
    labels and token estimate are. *)
Theorem Route_tool_use_cli (r : Router.t) (hints : RoutingHints.t) (pattern : string) :
  RoutingConfig.Enabled (Router.config r) = true ->
  RoutingHints.ModelTag hints = "" ->
  RoutingHints.Tier hints = "" ->
  In pattern toolPatterns ->
  occurs_in pattern
    (ToLower (RoutingHints.Title hints +:+ " " +:+ RoutingHints.Description hints)) ->
  Route ToLower Fields r (Some hints)
  = RouteResult.mk RouteCLI "" ""
      "task requires tool use (file operations, git, etc.)" false.
Proof.
  intros Hen Htag Htier Hin Hocc.
  unfold Route. rewrite Hen. simpl.
  rewrite (bool_decide_eq_true_2 _ Htag).
  unfold routeFromTier. rewrite (bool_decide_eq_true_2 _ Htier).
  unfold routeByAnalysis.
  rewrite Analyze_RequiresToolUse.
  assert (Htool : requiresToolUse
                    (combinedText ToLower (RoutingHints.Title hints)
                       (RoutingHints.Description hints)) = true).
  { apply requiresToolUse_loop_true. exists pattern. split; [exact Hin|].
    now apply Contains_occurs. }
  now rewrite Htool.
Qed.

End RouteResults.

Lemma Route_api_names_registered_backend_witness :
  RoutingConfig.Enabled (Router.config grokOnly) = true
  /\ Registry.Has (Router.registry grokOnly)
       (RouteResult.Backend
          (Route GoStrings.ascii_ToLower GoStrings.ascii_Fields grokOnly
             (Some (summarizeHints "" "")))) = true
  /\ RouteResult.FallbackToCLI
       (Route GoStrings.ascii_ToLower GoStrings.ascii_Fields grokOnly
          (Some (summarizeHints "" "")))
     = RoutingConfig.FallbackToCLI (Router.config grokOnly).
Proof.
  apply (Route_api_names_registered_backend
           GoStrings.ascii_ToLower GoStrings.ascii_Fields grokOnly
           (Some (summarizeHints "" ""))).
  vm_compute. reflexivity.
Defined.

Lemma Route_registered_tag_first_witness :
  Route GoStrings.ascii_ToLower GoStrings.ascii_Fields grokOnly
    (Some (RoutingHints.mk "Task" "git commit and git push the change" "opus"
             "grok-fast" "" "" 0 ["tier:quality"]))
  = RouteResult.mk RouteAPI "grok" "grok-3-mini" "legacy model tag: grok-fast" true.
Proof.
  apply (Route_registered_tag_first
           GoStrings.ascii_ToLower GoStrings.ascii_Fields grokOnly
           (RoutingHints.mk "Task" "git commit and git push the change" "opus"
              "grok-fast" "" "" 0 ["tier:quality"])
           "grok" "grok-3-mini").
  - reflexivity.
  - vm_compute. reflexivity.
  - vm_compute. reflexivity.
Defined.

Lemma Route_bedrock_serves_legacy_hints_witness :
  RouteResult.Decision
    (Route GoStrings.ascii_ToLower GoStrings.ascii_Fields
       bedrockOnly
       (Some (summarizeHints "" "grok-fast"))) = RouteAPI.
Proof.
  apply (proj1 (Route_bedrock_serves_legacy_hints
                  GoStrings.ascii_ToLower GoStrings.ascii_Fields
                  bedrockOnly
                  (summarizeHints "" "grok-fast")
                  eq_refl ltac:(vm_compute; reflexivity))).
  exists ("grok", "grok-3-mini"). vm_compute. reflexivity.
Defined.

Lemma Route_tool_use_cli_witness :
  Route GoStrings.ascii_ToLower GoStrings.ascii_Fields
    bedrockOnly
    (Some (RoutingHints.mk "Task" "Create a file called config.json" "" "" "" "" 0
             ["tier:fast"]))
  = RouteResult.mk RouteCLI "" ""
      "task requires tool use (file operations, git, etc.)" false.
Proof.
  apply (Route_tool_use_cli
           GoStrings.ascii_ToLower GoStrings.ascii_Fields
           bedrockOnly
           (RoutingHints.mk "Task" "Create a file called config.json" "" "" "" "" 0
              ["tier:fast"])
           "create a file").
  - reflexivity.
  - reflexivity.
  - reflexivity.
  - simpl. tauto.
  - exists "task ", " called config.json". reflexivity.
Defined.

(** ** [ExtractModelTag] *)

Lemma substring_whole (s : string) : String.substring 0 (String.length s) s = s.
Proof. induction s as [|c s IH]; [reflexivity | simpl; now rewrite IH]. Qed.

Lemma TrimPrefix_model (tag : string) : TrimPrefix ("model:" +:+ tag) "model:" = tag.
Proof.
  unfold TrimPrefix, GoStrings.HasPrefix.
  rewrite (proj2 (prefix_true_iff "model:" ("model:" +:+ tag))) by eauto.
  simpl. rewrite Nat.sub_0_r. apply substring_whole.
Qed.

(** X14.  [ExtractModelTag] gives back the tag of the first label of the
    form model:<tag>, and the empty string when no label starts with
    "model:". *)
Theorem ExtractModelTag_first_model_label (labels : list string) :
  ((forall l, In l labels -> GoStrings.HasPrefix l "model:" = false) ->
   ExtractModelTag labels = "")
  /\ (forall pre tag post,
        labels = (pre ++ ("model:" +:+ tag) :: post)%list ->
        (forall l, In l pre -> GoStrings.HasPrefix l "model:" = false) ->
        ExtractModelTag labels = tag).
Proof.
  split.
  - induction labels as [|a l IH]; intros H; [reflexivity|].
    cbn [ExtractModelTag]. rewrite (H a) by now left.
    apply IH. intros x Hx. apply H. now right.
  - intros pre tag post -> Hpre.
    induction pre as [|a pre IH].
    + cbn [app ExtractModelTag].
      replace (GoStrings.HasPrefix ("model:" +:+ tag) "model:") with true
        by (symmetry; apply prefix_true_iff; eauto).
      apply TrimPrefix_model.
    + cbn [app ExtractModelTag]. rewrite (Hpre a) by now left.
      apply IH. intros x Hx. apply Hpre. now right.
Qed.

Example ExtractModelTag_examples :
  ExtractModelTag ["bug"; "model:grok-fast"; "model:opus"] = "grok-fast"
  /\ ExtractModelTag ["bug"; "tier:fast"] = ""
  /\ ExtractModelTag ["model:"] = "".
Proof. repeat split. Qed.

(** ** The registry *)

Section BackendsProperties.

Variable AgentBackend : Type.
Variable Name : AgentBackend -> string.

(** X15.  A registered backend is found under its name, and registering
    it leaves every other name as it was; a name that was never
    registered gives the "not registered" error, and so does every name
    in the empty registry. *)
Theorem Backends_Register_Get (r : gmap string AgentBackend) (backend : AgentBackend) :
  Backends.Get (Backends.Register Name r backend) (Name backend)
  = Backends.Found backend
  /\ (forall name, name <> Name backend ->
        Backends.Get (Backends.Register Name r backend) name = Backends.Get r name)
  /\ (forall name, r !! name = None ->
        Backends.Get r name = Backends.NotRegistered name)
  /\ (forall name,
        Backends.Get (Backends.empty AgentBackend) name = Backends.NotRegistered name).
Proof.
  unfold Backends.Get, Backends.Register, Backends.empty. repeat split.
  - now rewrite lookup_insert_eq.
  - intros name Hne. now rewrite lookup_insert_ne.
  - intros name ->. reflexivity.
Qed.

(** X16.  [List] names every registered backend exactly once, [Has]
    holds of exactly the names [Get] finds, and registering a second
    backend under a name already taken replaces the first without adding
    a name. *)
Theorem Backends_List_Has (r : gmap string AgentBackend) :
  NoDup (Backends.List r)
  /\ (forall name, In name (Backends.List r) <-> Backends.Has r name = true)
  /\ (forall name,
        Backends.Has r name = true <-> exists b, Backends.Get r name = Backends.Found b)
  /\ (forall old new,
        r !! Name new = Some old ->
        Backends.Get (Backends.Register Name r new) (Name new) = Backends.Found new
        /\ forall name,
             In name (Backends.List (Backends.Register Name r new))
             <-> In name (Backends.List r)).
Proof.
  assert (Hin : forall (m : gmap string AgentBackend) name,
            In name (Backends.List m) <-> Backends.Has m name = true).
  { intros m name. unfold Backends.List, Backends.Has.
    rewrite <- list_elem_of_In, list_elem_of_fmap. split.
    - intros [[k b] [-> Hkb]]. apply elem_of_map_to_list in Hkb. simpl. now rewrite Hkb.
    - destruct (m !! name) as [b|] eqn:Hb; [|discriminate].
      intros _. exists (name, b). split; [reflexivity|]. now apply elem_of_map_to_list. }
  split; [apply NoDup_fst_map_to_list|].
  split; [apply Hin|]. split.
  - intros name. unfold Backends.Has, Backends.Get.
    destruct (r !! name) as [b|]; split; eauto; try discriminate.
    intros [b Hb]. discriminate.
  - intros old new Hold. split.
    + unfold Backends.Get, Backends.Register. now rewrite lookup_insert_eq.
    + intros name. rewrite !Hin. unfold Backends.Has, Backends.Register.
      destruct (decide (name = Name new)) as [->|Hne].
      * rewrite lookup_insert_eq, Hold. tauto.
      * now rewrite lookup_insert_ne.
Qed.

(** The set of names the router consults is kept in step with the
    registry: [Has] and [List] agree with it, and [Register] adds the
    backend's name to it. *)
Lemma Backends_names_view (r : gmap string AgentBackend) :
  (forall name, Registry.Has (Backends.names r) name = Backends.Has r name)
  /\ (forall name, In name (Registry.List (Backends.names r))
                   <-> In name (Backends.List r))
  /\ (forall backend,
        Backends.names (Backends.Register Name r backend)
        = Registry.Register (Backends.names r) (Name backend)).
Proof.
  assert (Hhas : forall name, Registry.Has (Backends.names r) name = Backends.Has r name).
  { intros name. unfold Registry.Has, Backends.names, Backends.Has.
    destruct (r !! name) as [b|] eqn:Hb.
    - apply bool_decide_eq_true. apply elem_of_dom. eauto.
    - apply bool_decide_eq_false. rewrite elem_of_dom, Hb. intros [? ?]. discriminate. }
  split; [exact Hhas|]. split.
  - intros name. rewrite Registry_List_Has, Hhas.
    unfold Backends.List, Backends.Has.
    rewrite <- list_elem_of_In, list_elem_of_fmap. split.
    + destruct (r !! name) as [b|] eqn:Hb; [|discriminate].
      intros _. exists (name, b). split; [reflexivity|]. now apply elem_of_map_to_list.
    + intros [[k b] [-> Hkb]]. apply elem_of_map_to_list in Hkb. simpl. now rewrite Hkb.
  - intros backend. unfold Backends.names, Backends.Register, Registry.Register.
    apply dom_insert_L.
Qed.

End BackendsProperties.

(** ** More on the context manager *)

Lemma estimateTokens_app (l1 l2 : list Message.t) :
  estimateTokens (l1 ++ l2) = estimateTokens l1 + estimateTokens l2.
Proof.
  induction l1 as [|m l IH]; [reflexivity|].
  simpl app. rewrite !estimateTokens_cons, IH. lia.
Qed.

Lemma estimateTokens_rev (l : list Message.t) :
  estimateTokens (rev l) = estimateTokens l.
Proof.
  induction l as [|m l IH]; [reflexivity|].
  simpl rev. rewrite estimateTokens_app, !estimateTokens_cons, IH.
  change (estimateTokens []) with 0. lia.
Qed.

(** The loop of [truncateOldest] takes messages, newest first, as long
    as they fit, and stops at the first that does not. *)
Lemma keepRecent_spec (newestFirst : list Message.t) (available : Z) :
  forall currentTokens result,
    currentTokens <= available ->
    exists taken remaining,
      newestFirst = (taken ++ remaining)%list
      /\ keepRecent newestFirst available currentTokens result
         = (rev taken ++ result)%list
      /\ currentTokens + estimateTokens taken <= available
      /\ match remaining with
         | [] => True
         | msg :: _ =>
             available < currentTokens + estimateTokens taken + estimateMessageTokens msg
         end.
Proof.
  induction newestFirst as [|m l IH]; intros cur result Hcur.
  - exists [], []. repeat split; auto. change (estimateTokens []) with 0. lia.
  - cbn [keepRecent].
    destruct (cur + estimateMessageTokens m >? available) eqn:Hfit.
    + apply Z.gtb_lt in Hfit. exists [], (m :: l).
      change (estimateTokens []) with 0. repeat split; auto; lia.
    + rewrite Z.gtb_ltb in Hfit. apply Z.ltb_ge in Hfit.
      destruct (IH (cur + estimateMessageTokens m) (m :: result) Hfit)
        as (taken & remaining & -> & Hres & Hsum & Hstop).
      exists (m :: taken), remaining.
      rewrite estimateTokens_cons. repeat split.
      * rewrite Hres. simpl rev. now rewrite <- app_assoc.
      * lia.
      * destruct remaining; [exact I | lia].
Qed.

(** What [truncateOldest] keeps of a conversation: its longest suffix
    that fits, the message before it being the one that did not. *)
Lemma keepRecent_suffix (conversation : list Message.t) (available : Z) :
  0 <= available ->
  exists dropped kept,
    conversation = (dropped ++ kept)%list
    /\ keepRecent (rev conversation) available 0 [] = kept
    /\ estimateTokens kept <= available
    /\ forall older earlier,
         dropped = (earlier ++ [older])%list ->
         available < estimateMessageTokens older + estimateTokens kept.
Proof.
  intros Hav.
  destruct (keepRecent_spec (rev conversation) available 0 [] Hav)
    as (taken & remaining & Hsplit & Hres & Hsum & Hstop).
  exists (rev remaining), (rev taken).
  rewrite app_nil_r in Hres. repeat split.
  - rewrite <- rev_app_distr, <- Hsplit. now rewrite rev_involutive.
  - exact Hres.
  - rewrite estimateTokens_rev. lia.
  - intros older earlier Hdrop. rewrite estimateTokens_rev.
    destruct remaining as [|msg remaining'].
    + simpl in Hdrop. now destruct earlier.
    + simpl rev in Hdrop. apply app_inj_tail in Hdrop as [_ ->]. lia.
Qed.

(** X17.  Given a leading system message that leaves room in the budget
    and at least one more message, [truncateOldest] returns the system
    message followed by the most recent messages: the longest suffix of
    the conversation that fits with it.  The result fits the budget, and
    the newest dropped message would not have fitted. *)
Theorem truncateOldest_keeps_recent_suffix (s : Message.t) (rest : list Message.t)
    (maxTokens : Z) :
  Message.Role s = "system" ->
  rest <> [] ->
  estimateMessageTokens s < maxTokens ->
  exists dropped kept,
    rest = (dropped ++ kept)%list
    /\ truncateOldest (s :: rest) maxTokens = Return (s :: kept)
    /\ estimateTokens (s :: kept) <= maxTokens
    /\ forall older earlier,
         dropped = (earlier ++ [older])%list ->
         maxTokens < estimateTokens (s :: older :: kept).
Proof.
  intros Hrole Hrest Hroom.
  assert (Hs : isSystem s = true) by now apply bool_decide_eq_true.
  destruct (keepRecent_suffix rest (maxTokens - estimateMessageTokens s) ltac:(lia))
    as (dropped & kept & Hsplit & Hkeep & Hfit & Hmax).
  exists dropped, kept. split; [exact Hsplit|]. split; [|split].
  - unfold truncateOldest.
    replace (Z.of_nat (length (s :: rest)) <? 2) with false
      by (symmetry; apply Z.ltb_ge; destruct rest; [contradiction | simpl length; lia]).
    rewrite (separate_system s rest Hs). cbn [systemCost withSystem].
    replace (maxTokens - estimateMessageTokens s <=? 0) with false
      by (symmetry; apply Z.leb_gt; lia).
    now rewrite Hkeep.
  - rewrite estimateTokens_cons. lia.
  - intros older earlier Hdrop. rewrite !estimateTokens_cons.
    specialize (Hmax older earlier Hdrop). lia.
Qed.

(** X18.  Without a leading system message and with at least two
    messages, [truncateOldest] returns the longest suffix of the list
    that fits a positive budget (possibly no message at all), and fails
    with "cannot fit any messages" when the budget is not positive. *)
Theorem truncateOldest_without_system (first : Message.t) (rest : list Message.t)
    (maxTokens : Z) :
  Message.Role first <> "system" ->
  rest <> [] ->
  (0 < maxTokens ->
   exists dropped kept,
     first :: rest = (dropped ++ kept)%list
     /\ truncateOldest (first :: rest) maxTokens = Return kept
     /\ estimateTokens kept <= maxTokens
     /\ forall older earlier,
          dropped = (earlier ++ [older])%list ->
          maxTokens < estimateTokens (older :: kept))
  /\ (maxTokens <= 0 ->
      truncateOldest (first :: rest) maxTokens = Fail (ErrCannotFit maxTokens)).
Proof.
  intros Hrole Hrest.
  assert (Hs : isSystem first = false) by now apply bool_decide_eq_false.
  assert (Hlen : (Z.of_nat (length (first :: rest)) <? 2) = false)
    by (apply Z.ltb_ge; destruct rest; [contradiction | simpl length; lia]).
  split.
  - intros Hpos.
    destruct (keepRecent_suffix (first :: rest) maxTokens ltac:(lia))
      as (dropped & kept & Hsplit & Hkeep & Hfit & Hmax).
    exists dropped, kept. split; [exact Hsplit|]. split; [|split].
    + unfold truncateOldest. rewrite Hlen, (separate_no_system first rest Hs).
      cbn [systemCost withSystem]. rewrite Z.sub_0_r.
      replace (maxTokens <=? 0) with false by (symmetry; apply Z.leb_gt; lia).
      now rewrite Hkeep.
    + exact Hfit.
    + intros older earlier Hdrop. rewrite estimateTokens_cons.
      exact (Hmax older earlier Hdrop).
  - intros Hneg. unfold truncateOldest.
    rewrite Hlen, (separate_no_system first rest Hs). cbn [systemCost].
    rewrite Z.sub_0_r.
    now replace (maxTokens <=? 0) with true by (symmetry; apply Z.leb_le; lia).
Qed.

Lemma truncateOldest_returns (messages : list Message.t) (maxTokens : Z) :
  0 < maxTokens ->
  exists result, truncateOldest messages maxTokens = Return result.
Proof.
  intros Hpos.
  destruct messages as [|m rest]; [now exists []|].
  destruct (isSystem m) eqn:Hm.
  - destruct (truncateOldest_system_first m rest maxTokens Hm Hpos)
      as (s' & kept & -> & _). eauto.
  - unfold truncateOldest. destruct (_ <? 2); [eauto|].
    rewrite (separate_no_system m rest Hm). cbn [systemCost withSystem].
    rewrite Z.sub_0_r.
    replace (maxTokens <=? 0) with false by (symmetry; apply Z.leb_gt; lia).
    eauto.
Qed.

Lemma truncateMiddle_returns (messages : list Message.t) (maxTokens : Z) :
  exists result, truncateMiddle messages maxTokens = Return result.
Proof.
  unfold truncateMiddle. destruct (_ <=? 2); [eauto|].
  destruct (separate 0 messages None []) as [systemMsg conversation].
  destruct (_ <=? 2); [eauto|]. destruct (_ <=? 0); eauto.
Qed.

Lemma PrepareContext_outcome (cm : ContextManager.t)
    (messages : list Message.t) (maxTokens : Z) (strategy : TruncationStrategy) :
  (exists result, PrepareContext cm messages maxTokens strategy = Return result)
  \/ (messages <> []
      /\ availableTokens cm maxTokens <= 0
      /\ PrepareContext cm messages maxTokens strategy
         = Fail (ErrReserve maxTokens (ContextManager.ReserveTokens cm))).
Proof.
  unfold PrepareContext.
  destruct (Z.of_nat (length messages) =? 0) eqn:Hlen; [left; eauto|].
  destruct (availableTokens cm maxTokens <=? 0) eqn:Hav.
  - right. apply Z.leb_le in Hav. repeat split; auto.
    intros ->. discriminate.
  - apply Z.leb_gt in Hav. left.
    destruct (_ <=? availableTokens cm maxTokens); [eauto|].
    repeat case_bool_decide;
      first [ now apply truncateOldest_returns
            | apply truncateMiddle_returns
            | unfold truncateLongest; eauto ].
Qed.

(** X19.  [PrepareContext] never panics and has one error only: for
    every manager, list, limit and strategy string it returns a list, or,
    for a non-empty list whose reserve leaves no token, the "too small
    for response reserve" error. *)
Theorem PrepareContext_returns_or_reserve_error (cm : ContextManager.t)
    (messages : list Message.t) (maxTokens : Z) (strategy : TruncationStrategy) :
  (exists result, PrepareContext cm messages maxTokens strategy = Return result)
  \/ (messages <> []
      /\ availableTokens cm maxTokens <= 0
      /\ PrepareContext cm messages maxTokens strategy
         = Fail (ErrReserve maxTokens (ContextManager.ReserveTokens cm))).
Proof.
  unfold PrepareContext.
  destruct (Z.of_nat (length messages) =? 0) eqn:Hlen; [left; eauto|].
  destruct (availableTokens cm maxTokens <=? 0) eqn:Hav.
  - right. apply Z.leb_le in Hav. repeat split; auto.
    intros ->. discriminate.
  - apply Z.leb_gt in Hav. left.
    destruct (_ <=? availableTokens cm maxTokens); [eauto|].
    repeat case_bool_decide;
      first [ now apply truncateOldest_returns
            | apply truncateMiddle_returns
            | unfold truncateLongest; eauto ].
Qed.

Example PrepareContext_may_return_nothing :
  PrepareContext NewContextManager
    [Message.mk "user" "a question of twenty-five bytes.";
     Message.mk "assistant" "an answer of about the same length"] 4100 TruncateOldest
  = Return [].
Proof. vm_compute. reflexivity. Qed.

(** X20.  A system message and one user message that do not fit
    together: when the system message alone leaves room, [PrepareContext]
    with [TruncateOldest] returns the system message alone; the user
    message is dropped whole, not shortened. *)
Theorem PrepareContext_drops_the_user_message (cm : ContextManager.t)
    (s u : Message.t) (maxTokens : Z) :
  Message.Role s = "system" ->
  estimateMessageTokens s < availableTokens cm maxTokens ->
  availableTokens cm maxTokens < estimateTokens [s; u] ->
  PrepareContext cm [s; u] maxTokens TruncateOldest = Return [s].
Proof.
  intros Hrole Hroom Hover.
  assert (Hs : isSystem s = true) by now apply bool_decide_eq_true.
  pose proof (estimateMessageTokens_lower s) as Hlow.
  unfold PrepareContext. cbn [length].
  replace (Z.of_nat 2 =? 0) with false by reflexivity.
  replace (availableTokens cm maxTokens <=? 0) with false
    by (symmetry; apply Z.leb_gt; lia).
  replace (estimateTokens [s; u] <=? availableTokens cm maxTokens) with false
    by (symmetry; apply Z.leb_gt; lia).
  replace (bool_decide (TruncateOldest = "")) with false by reflexivity.
  rewrite (bool_decide_eq_true_2 (TruncateOldest = TruncateOldest) eq_refl).
  unfold truncateOldest. cbn [length].
  replace (Z.of_nat 2 <? 2) with false by reflexivity.
  rewrite (separate_system s [u] Hs). cbn [systemCost withSystem rev app keepRecent].
  replace (availableTokens cm maxTokens - estimateMessageTokens s <=? 0) with false
    by (symmetry; apply Z.leb_gt; lia).
  rewrite !estimateTokens_cons in Hover. change (estimateTokens []) with 0 in Hover.
  now replace (0 + estimateMessageTokens u
               >? availableTokens cm maxTokens - estimateMessageTokens s) with true
    by (symmetry; apply Z.gtb_lt; lia).
Qed.

Lemma truncateOldest_keeps_recent_suffix_witness :
  exists dropped kept,
    tl chat = (dropped ++ kept)%list
    /\ truncateOldest (Message.mk "system" "You are a helpful assistant" :: tl chat) 25
       = Return (Message.mk "system" "You are a helpful assistant" :: kept)
    /\ estimateTokens (Message.mk "system" "You are a helpful assistant" :: kept) <= 25
    /\ forall older earlier,
         dropped = (earlier ++ [older])%list ->
         25 < estimateTokens
                (Message.mk "system" "You are a helpful assistant" :: older :: kept).
Proof.
  apply (truncateOldest_keeps_recent_suffix
           (Message.mk "system" "You are a helpful assistant") (tl chat) 25).
  - reflexivity.
  - discriminate.
  - vm_compute. reflexivity.
Defined.

Lemma truncateOldest_without_system_witness :
  (exists dropped kept,
     Message.mk "user" "First message" :: [Message.mk "assistant" "Second response"]
     = (dropped ++ kept)%list
     /\ truncateOldest
          (Message.mk "user" "First message" :: [Message.mk "assistant" "Second response"])
          10
        = Return kept
     /\ estimateTokens kept <= 10
     /\ forall older earlier,
          dropped = (earlier ++ [older])%list ->
          10 < estimateTokens (older :: kept))
  /\ truncateOldest
       (Message.mk "user" "First message" :: [Message.mk "assistant" "Second response"])
       0
     = Fail (ErrCannotFit 0).
Proof.
  destruct (truncateOldest_without_system
              (Message.mk "user" "First message")
              [Message.mk "assistant" "Second response"] 10
              ltac:(discriminate) ltac:(discriminate)) as [Hpos _].
  destruct (truncateOldest_without_system
              (Message.mk "user" "First message")
              [Message.mk "assistant" "Second response"] 0
              ltac:(discriminate) ltac:(discriminate)) as [_ Hzero].
  split; [apply Hpos; lia | apply Hzero; lia].
Defined.

Lemma PrepareContext_drops_the_user_message_witness :
  PrepareContext NewContextManager
    [Message.mk "system" "You are a helpful assistant"; Message.mk "user" "First message"]
    4111 TruncateOldest
  = Return [Message.mk "system" "You are a helpful assistant"].
Proof.
  apply PrepareContext_drops_the_user_message.
  - reflexivity.
  - vm_compute. reflexivity.
  - vm_compute. reflexivity.
Defined.

(** *** [truncateMessage] *)




Example truncateMessage_examples :
  truncateMessage (Message.mk "system" "You are a helpful assistant") 5
  = Return (Message.mk "system" "You are a helpful...")
  /\ truncateMessage (Message.mk "system" "You are a helpful assistant") 7
     = Return (Message.mk "system" "You are a helpful assistant")
  /\ truncateMessage (Message.mk "system" "You are a helpful assistant") 0
     = SlicePanic.
Proof. repeat split. Qed.

(** *** [truncateLongest] keeps the order and the system messages *)

Lemma longestLoop_sublist (budget : Z) (fuel : nat) :
  forall msgs,
    sublist (longestLoop fuel msgs budget) msgs
    /\ List.filter isSystem (longestLoop fuel msgs budget) = List.filter isSystem msgs.
Proof.
  induction fuel as [|fuel IH]; intros msgs; cbn [longestLoop]; [auto|].
  destruct (_ && _); [|auto].
  destruct (findLongest_spec msgs 0 (-1) 0)
    as [[-> _] | (pre & m & post & -> & -> & Hm & _)]; [auto|].
  replace (0 + Z.of_nat (length pre) <? 0) with false
    by (symmetry; apply Z.ltb_ge; lia).
  rewrite removeAt_middle.
  destruct (IH (pre ++ post)%list) as [Hsub Hfilter]. split.
  - etransitivity; [exact Hsub|].
    apply sublist_app; [reflexivity | now apply sublist_cons].
  - rewrite Hfilter, !List.filter_app. cbn [List.filter]. now rewrite Hm.
Qed.

(** X22.  [truncateLongest] only removes messages: what it returns is a
    sublist of its input, in the input's order, and holds every message
    of role "system" the input has. *)
Theorem truncateLongest_sublist (messages : list Message.t) (maxTokens : Z) :
  exists result,
    truncateLongest messages maxTokens = Return result
    /\ sublist result messages
    /\ List.filter isSystem result = List.filter isSystem messages.
Proof.
  exists (longestLoop (length messages) messages maxTokens).
  split; [reflexivity|]. apply longestLoop_sublist.
Qed.

(** *** [truncateMiddle] *)









(** *** [BuildMessagesFromText] *)

(** X24.  [BuildMessagesFromText] makes one message per non-empty
    prompt, the system prompt first: no message it returns has empty
    content, a message of role "system" can only be the first, and the
    list is empty exactly when both prompts are. *)
Theorem BuildMessagesFromText_shape (systemPrompt userPrompt : string) :
  (forall m, In m (BuildMessagesFromText systemPrompt userPrompt) ->
     Message.Content m <> "")
  /\ (forall i m,
        BuildMessagesFromText systemPrompt userPrompt !! i = Some m ->
        Message.Role m = "system" ->
        i = 0%nat /\ Message.Content m = systemPrompt)
  /\ (forall m, last (BuildMessagesFromText systemPrompt userPrompt) = Some m ->
        userPrompt <> "" -> m = Message.mk "user" userPrompt)
  /\ (BuildMessagesFromText systemPrompt userPrompt = []
      <-> systemPrompt = "" /\ userPrompt = "").
Proof.
  unfold BuildMessagesFromText.
  destruct (decide (systemPrompt = "")) as [Hs|Hs];
    destruct (decide (userPrompt = "")) as [Hu|Hu];
    rewrite ?(bool_decide_eq_true_2 _ Hs), ?(bool_decide_eq_false_2 _ Hs),
            ?(bool_decide_eq_true_2 _ Hu), ?(bool_decide_eq_false_2 _ Hu);
    cbn [app]; repeat split.
  all: try (intros m Hin; cbn [In] in Hin;
            repeat (destruct Hin as [<-|Hin]; [assumption|]); contradiction).
  all: try match goal with
           | H : _ !! ?i = Some _, Hr : Message.Role _ = "system" |- _ =>
               destruct i as [|[|i]]; cbn in H; try discriminate H;
               injection H as <-; first [discriminate Hr | reflexivity]
           end.
  all: try (intros m Hl Hne; cbn in Hl; first [contradiction | congruence]).
  all: try tauto; try discriminate; try (intros [? ?]; contradiction).
Qed.

(** ** The Grok backend *)

Lemma totalChars_fold (messages : list Message.t) (start : Z) :
  fold_left
    (fun totalChars msg =>
       totalChars + GoStrings.len (Message.Content msg)
       + (GoStrings.len (Message.Role msg) + 10))
    messages start
  = start + fold_right (fun msg total => messageChars msg + total) 0 messages.
Proof.
  revert start. induction messages as [|m l IH]; intros start; simpl; [lia|].
  rewrite IH. unfold messageChars. lia.
Qed.

Lemma messageChars_tokens (msg : Message.t) :
  4 * estimateMessageTokens msg <= messageChars msg
  /\ messageChars msg <= 4 * estimateMessageTokens msg + 3.
Proof.
  unfold estimateMessageTokens. fold (messageChars msg).
  assert (H : 0 <= messageChars msg)
    by (unfold messageChars;
        pose proof (len_nonneg (Message.Content msg));
        pose proof (len_nonneg (Message.Role msg)); lia).
  rewrite Z.quot_div_nonneg by lia.
  pose proof (Z.div_mod (messageChars msg) 4 ltac:(lia)).
  pose proof (Z.mod_pos_bound (messageChars msg) 4 ltac:(lia)). lia.
Qed.

(** X25.  The backend's token count and the context manager's estimate
    differ only by rounding: the estimate (which rounds per message)
    never exceeds the count (which rounds once), and the count exceeds it
    by less than one token per message. *)
Theorem CountTokens_vs_estimateTokens (messages : list Message.t) :
  estimateTokens messages <= Grok.CountTokens messages
  /\ 4 * Grok.CountTokens messages
     <= 4 * estimateTokens messages + 3 * Z.of_nat (length messages).
Proof.
  unfold Grok.CountTokens. rewrite totalChars_fold, Z.add_0_l.
  set (chars := fold_right (fun msg total => messageChars msg + total) 0 messages).
  assert (Hb : 4 * estimateTokens messages <= chars
               /\ chars <= 4 * estimateTokens messages + 3 * Z.of_nat (length messages)).
  { subst chars. induction messages as [|m l IH].
    - change (estimateTokens []) with 0. simpl. lia.
    - rewrite estimateTokens_cons. cbn [fold_right]. simpl length.
      pose proof (messageChars_tokens m). lia. }
  pose proof (estimateTokens_lower messages) as Hlow.
  rewrite Z.quot_div_nonneg by lia.
  pose proof (Z.div_mod chars 4 ltac:(lia)).
  pose proof (Z.mod_pos_bound chars 4 ltac:(lia)). lia.
Qed.

Lemma Models_windows (model : string) (ctx : Z) :
  Grok.Models !! model = Some ctx -> ctx = 131072 \/ ctx = 32768.
Proof.
  intros H.
  assert (Hall : map_Forall (fun _ ctx => ctx = 131072 \/ ctx = 32768) Grok.Models).
  { unfold Grok.Models. apply map_Forall_to_list.
    eapply Forall_forall. intros [k v] Hin.
    apply elem_of_map_to_list in Hin.
    apply elem_of_list_to_map_2 in Hin.
    apply list_elem_of_In in Hin. simpl in Hin.
    repeat (destruct Hin as [[= <- <-]|Hin]; [simpl; tauto|]). contradiction. }
  exact (Hall model ctx H).
Qed.

(** X26.  Every model, known to the Grok backend or not, has a context
    window of 32768 or 131072 tokens; so with the default manager's
    reserve of 4096, preparing a context for a Grok model never fails,
    whatever the messages and the strategy. *)
Theorem Grok_window_prepares (model : string) (messages : list Message.t)
    (strategy : TruncationStrategy) :
  (Grok.MaxContextTokens model = 32768 \/ Grok.MaxContextTokens model = 131072)
  /\ (Grok.Models !! model = None -> Grok.MaxContextTokens model = 131072)
  /\ exists result,
       PrepareContext NewContextManager messages (Grok.MaxContextTokens model) strategy
       = Return result.
Proof.
  assert (Hw : Grok.MaxContextTokens model = 32768
               \/ Grok.MaxContextTokens model = 131072).
  { unfold Grok.MaxContextTokens.
    destruct (Grok.Models !! model) as [ctx|] eqn:Hm; [|now right].
    destruct (Models_windows model ctx Hm); auto. }
  split; [exact Hw|]. split.
  - intros Hnone. unfold Grok.MaxContextTokens. now rewrite Hnone.
  - destruct (PrepareContext_outcome NewContextManager messages
                (Grok.MaxContextTokens model) strategy)
      as [Hret | (_ & Hav & _)]; [exact Hret|].
    exfalso. destruct Hw as [Hw|Hw]; rewrite Hw in Hav; vm_compute in Hav;
      now apply Hav.
Qed.

Example Grok_MaxContextTokens_examples :
  Grok.MaxContextTokens "grok-2-vision-1212" = 32768
  /\ Grok.MaxContextTokens "grok-3-mini" = 131072
  /\ Grok.MaxContextTokens "no-such-model" = 131072.
Proof. repeat split; vm_compute; reflexivity. Qed.

(** ** More on the cost tracker *)

Lemma sumCosts_snoc (entries : list CostEntry.t) (entry : CostEntry.t) :
  sumCosts (entries ++ [entry])
  = PrimFloat.add (sumCosts entries) (CostEstimate.TotalCost (CostEntry.Cost entry)).
Proof. unfold sumCosts. now rewrite fold_left_app. Qed.

(** X27.  The running total is always the float64 sum of the recorded
    costs, added in the order of recording: this holds of a new tracker
    and after [Reset], and [Record] keeps it. *)
Theorem total_is_sum_of_costs :
  totalConsistent NewCostTracker
  /\ (forall ct, totalConsistent (Reset ct))
  /\ (forall ct now backend model result cost,
        totalConsistent ct ->
        totalConsistent (fst (Record_ ct now backend model result cost))).
Proof.
  unfold totalConsistent. repeat split.
  intros ct now backend model result cost Hct.
  rewrite Record_entries, sumCosts_snoc. cbn. now rewrite Hct.
Qed.

Lemma Summary_snoc (entries : list CostEntry.t) (entry : CostEntry.t)
    (total warn alert : float) :
  Summary (CostTracker.mk (entries ++ [entry]) total warn alert)
  = summaryStep (Summary (CostTracker.mk entries total warn alert)) entry.
Proof. unfold Summary. cbn. apply fold_left_app. Qed.

Lemma entriesOf_snoc (backend : string) (entries : list CostEntry.t)
    (entry : CostEntry.t) :
  entriesOf backend (entries ++ [entry])
  = (entriesOf backend entries
       ++ if bool_decide (CostEntry.Backend entry = backend) then [entry] else [])%list.
Proof. unfold entriesOf. rewrite List.filter_app. reflexivity. Qed.

(** X28.  [Summary] counts, for each backend, the entries recorded for
    it; a backend has a summary exactly when it has an entry, so the
    summary is empty (and [FormatSummary] reports that no cost was
    recorded) exactly when nothing was recorded. *)
Theorem Summary_counts_entries (ct : CostTracker.t) :
  (forall backend,
     BackendCostSummary.Invocations (summaryOf ct backend)
     = Z.of_nat (length (entriesOf backend (CostTracker.entries ct))))
  /\ (forall backend,
        Summary ct !! backend = None
        <-> entriesOf backend (CostTracker.entries ct) = [])
  /\ (Summary ct = ∅ <-> CostTracker.entries ct = []).
Proof.
  destruct ct as [entries total warn alert]. cbn [CostTracker.entries].
  assert (Hboth : forall backend,
            BackendCostSummary.Invocations
              (default BackendCostSummary.zero
                 (Summary (CostTracker.mk entries total warn alert) !! backend))
            = Z.of_nat (length (entriesOf backend entries))
            /\ (Summary (CostTracker.mk entries total warn alert) !! backend = None
                <-> entriesOf backend entries = [])).
  { intros backend. induction entries as [|entry entries IH] using rev_ind.
    - unfold Summary. cbn. rewrite lookup_empty. cbn. tauto.
    - rewrite Summary_snoc, entriesOf_snoc. destruct IH as [IHn IHd].
      unfold summaryStep.
      destruct (decide (CostEntry.Backend entry = backend)) as [<-|Hne].
      + rewrite lookup_insert_eq, (bool_decide_eq_true_2 _ eq_refl).
        rewrite length_app. cbn -[Summary entriesOf Z.of_nat].
        split; [rewrite IHn; lia|].
        split; [discriminate | intros H; now destruct (entriesOf _ entries)].
      + rewrite lookup_insert_ne by exact Hne.
        rewrite (bool_decide_eq_false_2 _ Hne), app_nil_r. tauto. }
  split; [intros backend; apply Hboth|]. split; [intros backend; apply Hboth|].
  split.
  - intros Hempty. destruct entries as [|entry entries]; [reflexivity|].
    exfalso.
    assert (Hnone : Summary (CostTracker.mk (entry :: entries) total warn alert)
                      !! CostEntry.Backend entry = None)
      by (rewrite Hempty; apply lookup_empty).
    apply Hboth in Hnone. unfold entriesOf in Hnone. cbn [List.filter] in Hnone.
    rewrite (bool_decide_eq_true_2 _ eq_refl) in Hnone. discriminate.
  - intros ->. reflexivity.
Qed.

(** X29.  [Record] adds the call's tokens (with [int] wrap-around) and
    cost to the summary of its backend and leaves the summary of every
    other backend as it was. *)
Theorem Record_updates_one_summary (ct : CostTracker.t) (now : Z)
    (backend model : string) (result : InvokeResult.t) (cost : CostEstimate.t) :
  BackendCostSummary.InputTokens
    (summaryOf (fst (Record_ ct now backend model result cost)) backend)
  = GoInt.add (BackendCostSummary.InputTokens (summaryOf ct backend))
      (InvokeResult.InputTokens result)
  /\ BackendCostSummary.OutputTokens
       (summaryOf (fst (Record_ ct now backend model result cost)) backend)
     = GoInt.add (BackendCostSummary.OutputTokens (summaryOf ct backend))
         (InvokeResult.OutputTokens result)
  /\ BackendCostSummary.TotalCost
       (summaryOf (fst (Record_ ct now backend model result cost)) backend)
     = PrimFloat.add (BackendCostSummary.TotalCost (summaryOf ct backend))
         (CostEstimate.TotalCost cost)
  /\ (forall other, other <> backend ->
        summaryOf (fst (Record_ ct now backend model result cost)) other
        = summaryOf ct other).
Proof.
  unfold summaryOf. rewrite Summary_Record. unfold summaryStep.
  cbn [CostEntry.Backend CostEntry.InputTokens CostEntry.OutputTokens CostEntry.Cost].
  rewrite lookup_insert_eq. cbn. repeat split.
  intros other Hne. now rewrite lookup_insert_ne.
Qed.
